(** * graceful: serializers and media handlers

    A shallow embedding of [graceful/serializers.py], [graceful/media/base.py],
    [graceful/media/json.py] and [graceful/media/handlers.py], followed by the
    properties of the serializer and of the media-handler registry.

    Python raises exceptions; here every function that can raise returns a
    [Result].  Python dictionaries keep insertion order, and the code relies
    on it ([OrderedDict] for the serializer fields, iteration over
    [handlers.values()] in the registry constructor), so a dictionary is an
    association list with unique keys that is only ever updated through
    [PyDict.set]: an existing key keeps its position, a new key goes last. *)

From Stdlib Require Import String Ascii List ZArith Lia Bool.
From Stdlib Require Import Strings.Byte.
Import ListNotations.
Local Open Scope string_scope.
Local Open Scope list_scope.

Set Warnings "-register-all".

Set Implicit Arguments.

(* ================================================================== *)
(** ** Exceptions and results *)

Inductive Exn : Type :=
| KeyError (key : string)
| TypeError (msg : string)
| ValueError (msg : string)
| AttributeError (msg : string)
| AssertionError
| HTTPUnsupportedMediaType (description : string)
| HTTPBadRequest (title description : string).

Inductive Result (A : Type) : Type :=
| Ok (a : A)
| Raise (e : Exn).

Arguments Ok {A} a.
Arguments Raise {A} e.

Definition bind {A B : Type} (c : Result A) (k : A -> Result B) : Result B :=
  match c with
  | Ok a => k a
  | Raise e => Raise e
  end.

Notation "x <- c ;; k" := (bind c (fun x => k))
  (at level 61, c at next level, right associativity).

(** A list comprehension [[f(item) for item in items]]: left to right, the
    first exception aborts it. *)
Fixpoint comprehension {A B : Type} (f : A -> Result B) (items : list A)
  : Result (list B) :=
  match items with
  | [] => Ok []
  | item :: rest =>
      y <- f item ;;
      ys <- comprehension f rest ;;
      Ok (y :: ys)
  end.

(* ================================================================== *)
(** ** Strings *)

(** [not s] on a Python string. *)
Definition is_empty (s : string) : bool :=
  match s with
  | EmptyString => true
  | String _ _ => false
  end.

(** [a or b] where [a] is [None] or a string. *)
Definition str_or (a : option string) (b : string) : string :=
  match a with
  | Some s => if is_empty s then b else s
  | None => b
  end.

(** ["'{}'".format(s)] *)
Definition quoted (s : string) : string :=
  String.append "'" (String.append s "'").

(** [sep.join(parts)] *)
Fixpoint join (sep : string) (parts : list string) : string :=
  match parts with
  | [] => EmptyString
  | [p] => p
  | p :: rest => String.append p (String.append sep (join sep rest))
  end.

Definition mem (k : string) (l : list string) : bool :=
  existsb (String.eqb k) l.

(** The elements of a list without repetition, each at the place of its
    first occurrence. *)
Fixpoint first_occurrences (l : list string) : list string :=
  match l with
  | [] => []
  | k :: rest =>
      k :: filter (fun k' => negb (String.eqb k k')) (first_occurrences rest)
  end.

(** [set(l)].  Python leaves the iteration order of a set open; the model
    enumerates it in order of first occurrence. *)
Definition py_set (l : list string) : list string := first_occurrences l.

(* ================================================================== *)
(** ** Dictionaries *)

Module PyDict.

Definition t (V : Type) : Type := list (string * V).

Section Ops.
Variable V : Type.

Definition empty : t V := [].

(** [d.get(k, None)] *)
Fixpoint get (d : t V) (k : string) : option V :=
  match d with
  | [] => None
  | (k', v) :: rest => if String.eqb k' k then Some v else get rest k
  end.

(** [k in d] *)
Definition contains (d : t V) (k : string) : bool :=
  match get d k with
  | Some _ => true
  | None => false
  end.

(** [d[k]] *)
Definition getitem (d : t V) (k : string) : Result V :=
  match get d k with
  | Some v => Ok v
  | None => Raise (KeyError k)
  end.

(** [d[k] = v] *)
Fixpoint set (d : t V) (k : string) (v : V) : t V :=
  match d with
  | [] => [(k, v)]
  | (k', v') :: rest =>
      if String.eqb k' k then (k', v) :: rest
      else (k', v') :: set rest k v
  end.

Definition keys (d : t V) : list string := map fst d.
Definition values (d : t V) : list V := map snd d.
Definition items (d : t V) : list (string * V) := d.

(** [d.update(pairs)] *)
Definition update (d : t V) (pairs : list (string * V)) : t V :=
  fold_left (fun acc kv => set acc (fst kv) (snd kv)) pairs d.

(** [dict(pairs)], [OrderedDict(pairs)] and a dict comprehension. *)
Definition of_items (pairs : list (string * V)) : t V :=
  update empty pairs.

(** The entries of [d] whose key is in [ks]. *)
Definition restrict (d : t V) (ks : list string) : t V :=
  filter (fun kv => mem (fst kv) ks) d.

End Ops.

Arguments empty {V}.

End PyDict.

(* ================================================================== *)
(** ** Values *)

(** The Python values that serializers handle: scalars, sequences, mappings
    (keys act as attributes) and plain objects with named attributes.
    [VDict] is a [dict], a [MutableMapping].  [VMapping] is a [Mapping]
    that is not a [MutableMapping]: its entries cannot be assigned, and
    [attrs] holds the attributes of the instance, or is [None] when the
    instance accepts no attribute (as a [types.MappingProxyType]). *)
Inductive Value : Type :=
| VNone
| VBool (b : bool)
| VInt (z : Z)
| VStr (s : string)
| VList (l : list Value)
| VDict (d : list (string * Value))
| VObj (attrs : list (string * Value))
| VMapping (entries : list (string * Value))
    (attrs : option (list (string * Value))).

(** [for item in v]: a list yields its elements, a string its characters, a
    mapping its keys; anything else is not iterable. *)
Definition iterate (v : Value) : Result (list Value) :=
  match v with
  | VList l => Ok l
  | VStr s => Ok (map (fun c => VStr (String c EmptyString)) (list_ascii_of_string s))
  | VDict d => Ok (map (fun kv => VStr (fst kv)) d)
  | VMapping entries _ => Ok (map (fun kv => VStr (fst kv)) entries)
  | _ => Raise (TypeError "object is not iterable")
  end.

(* ================================================================== *)
(** ** graceful.fields.BaseField *)

Module BaseField.

(** Modelled from the spec: [graceful/fields.py] is not among the sources.
    A field carries the attributes of FieldSpec ([source], [many],
    [read_only], [write_only], [allow_null], [label], [details]) and the
    three methods that concrete field classes supply and that the
    serializer calls: [to_representation] (internal to external),
    [from_representation] (external to internal) and [validate], whose
    result is what [BaseSerializer.from_representation] stores. *)
Record t : Type := Build {
  source : option string;
  many : bool;
  read_only : bool;
  write_only : bool;
  allow_null : bool;
  label : string;
  details : string;
  to_representation : Value -> Result Value;
  from_representation : Value -> Result Value;
  validate : Value -> Result Value
}.

End BaseField.

(* ================================================================== *)
(** ** graceful.serializers.MetaSerializer *)

(** An entry of a class body: a field instance or anything else. *)
Inductive Attribute : Type :=
| AField (f : BaseField.t)
| AOther (v : Value).

(** [isinstance(attribute, BaseField)] *)
Definition is_field (a : Attribute) : bool :=
  match a with
  | AField _ => true
  | AOther _ => false
  end.

(** A class as the metaclass sees it: [_fields] is [None] when
    [hasattr(cls, '_fields')] is false (as for [object]). *)
Record Class : Type := MkClass {
  _fields : option (PyDict.t BaseField.t);
  namespace_of : PyDict.t Attribute
}.

Module MetaSerializer.

(** The list comprehension of [_get_fields]: the field attributes of the
    class body, in declaration order. *)
Fixpoint declared_fields (namespace : PyDict.t Attribute)
  : list (string * BaseField.t) :=
  match namespace with
  | [] => []
  | (name, AField f) :: rest => (name, f) :: declared_fields rest
  | (_, AOther _) :: rest => declared_fields rest
  end.

(** The namespace after every field has been popped from it. *)
Definition popped (namespace : PyDict.t Attribute) : PyDict.t Attribute :=
  filter (fun kv => negb (is_field (snd kv))) namespace.

(** One turn of [for base in reversed(bases)]. *)
Definition prepend_base (fields : list (string * BaseField.t)) (base : Class)
  : list (string * BaseField.t) :=
  match _fields base with
  | Some storage => PyDict.items storage ++ fields
  | None => fields
  end.

(** Returns the field storage and the namespace left behind. *)
Definition _get_fields (bases : list Class) (namespace : PyDict.t Attribute)
  : PyDict.t BaseField.t * PyDict.t Attribute :=
  let fields := declared_fields namespace in
  let namespace := popped namespace in
  let fields := fold_left prepend_base (rev bases) fields in
  (PyDict.of_items fields, namespace).

Definition __new__ (bases : list Class) (namespace : PyDict.t Attribute)
  : Class :=
  let (storage, namespace) := _get_fields bases namespace in
  MkClass (Some storage) namespace.

End MetaSerializer.

(* ================================================================== *)
(** ** graceful.serializers.BaseSerializer *)

Module BaseSerializer.

(** A serializer instance is determined by the field storage of its
    class: the property [fields]. *)
Definition t : Type := PyDict.t BaseField.t.

Definition fields (cls : Class) : t :=
  match _fields cls with
  | Some storage => storage
  | None => PyDict.empty
  end.

(** [field.source or name] *)
Definition source_or_name (field : BaseField.t) (name : string) : string :=
  str_or (BaseField.source field) name.

Definition or_none (o : option Value) : Value :=
  match o with
  | Some v => v
  | None => VNone
  end.

(** Every [Mapping], mutable or not, is read by key.  Numbers, strings,
    lists and [None] have the attributes of their built-in types only
    (methods and the like); these are not values of the model, and
    [getattr] is taken to find none of them. *)
Definition get_attribute (obj : Value) (attr : string) : Value :=
  if String.eqb attr "*" then obj
  else match obj with
       | VDict d => or_none (PyDict.get d attr)
       | VMapping entries _ => or_none (PyDict.get entries attr)
       | VObj attrs => or_none (PyDict.get attrs attr)
       | _ => VNone
       end.

(** The body of the loop of [to_representation] for one field. *)
Definition represent (field : BaseField.t) (attribute : Value) : Result Value :=
  match attribute with
  | VNone => Ok (if BaseField.many field then VList [] else VNone)
  | _ =>
      if BaseField.many field then
        items <- iterate attribute ;;
        l <- comprehension (BaseField.to_representation field) items ;;
        Ok (VList l)
      else BaseField.to_representation field attribute
  end.

Fixpoint to_representation_loop (fields : list (string * BaseField.t))
    (obj : Value) (representation : PyDict.t Value)
  : Result (PyDict.t Value) :=
  match fields with
  | [] => Ok representation
  | (name, field) :: rest =>
      let attribute := get_attribute obj (source_or_name field name) in
      v <- represent field attribute ;;
      to_representation_loop rest obj (PyDict.set representation name v)
  end.

Definition to_representation (self : t) (obj : Value)
  : Result (PyDict.t Value) :=
  to_representation_loop (PyDict.items self) obj PyDict.empty.

(** The dict comprehension of [from_representation]; [acc] is the
    dictionary built so far. *)
Fixpoint from_representation_loop (fields : list (string * BaseField.t))
    (representation : PyDict.t Value) (partial : bool)
    (acc : PyDict.t Value) : Result (PyDict.t Value) :=
  match fields with
  | [] => Ok acc
  | (name, field) :: rest =>
      if negb partial || PyDict.contains representation name then
        let key := source_or_name field name in
        external <- PyDict.getitem representation name ;;
        internal <- BaseField.from_representation field external ;;
        value <- BaseField.validate field internal ;;
        from_representation_loop rest representation partial
          (PyDict.set acc key value)
      else from_representation_loop rest representation partial acc
  end.

Definition from_representation (self : t) (representation : PyDict.t Value)
    (partial : bool) : Result (PyDict.t Value) :=
  from_representation_loop (PyDict.items self) representation partial
    PyDict.empty.

End BaseSerializer.

(* ================================================================== *)
(** ** Streams *)

Module BytesIO.

(** An [io.BytesIO]: the buffer and the read position. *)
Record t : Type := Build {
  buffer : list byte;
  pos : nat
}.

Definition remaining (s : t) : list byte := skipn (pos s) (buffer s).

(** [s.read(size)]: a negative size reads to the end, otherwise at most
    [size] bytes are read. *)
Definition read (s : t) (size : Z) : list byte * t :=
  let data :=
    if (size <? 0)%Z then remaining s
    else firstn (Z.to_nat size) (remaining s) in
  (data, Build (buffer s) (pos s + length data)).

End BytesIO.

(* ================================================================== *)
(** ** graceful.media.base.BaseMediaHandler *)

Module BaseMediaHandler.

(** A codec instance: [ident] tells two instances apart, [media_type] is
    the abstract property, [allowed_media_types] is set by [__init__]. *)
Record t : Type := Build {
  ident : nat;
  media_type : string;
  allowed_media_types : list string
}.

(** [set([self.media_type] + extra_media_types)] *)
Definition init_allowed (media_type : string) (extra_media_types : list string)
  : list string :=
  py_set ([media_type] ++ extra_media_types).

Definition __init__ (ident : nat) (media_type : string)
    (extra_media_types : list string) : t :=
  Build ident media_type (init_allowed media_type extra_media_types).

(** The description of the unsupported-media-type error, shared by
    [handle_request] and [MediaHandlers.lookup_handler]. *)
Definition unsupported_description (media_type : string)
    (allowed_media_types : list string) : string :=
  let allowed := join ", " (map quoted allowed_media_types) in
  String.append (quoted media_type)
    (String.append " is an unsupported media type, supported media types: "
       allowed).

End BaseMediaHandler.

(* ================================================================== *)
(** ** graceful.media.json.JSONHandler *)

Module JSONHandler.

Definition media_type : string := "application/json".

Definition __init__ (ident : nat) (extra_media_types : list string)
  : BaseMediaHandler.t :=
  BaseMediaHandler.__init__ ident media_type extra_media_types.

(** [content_length or 0] *)
Definition length_or_0 (content_length : option Z) : Z :=
  match content_length with
  | Some n => n
  | None => 0%Z
  end.

Section Deserialize.
(** [loads] is the classmethod that decodes UTF-8 and parses JSON; the
    parser is the standard library's and stays a parameter. *)
Variable loads : list byte -> Result Value.

(** The [try] block around [loads]: a [ValueError] becomes a bad request. *)
Definition try_loads (data : list byte) : Result Value :=
  match loads data with
  | Ok media => Ok media
  | Raise (ValueError err) =>
      Raise (HTTPBadRequest "Invalid JSON"
               (String.append "Could not parse JSON body - " err))
  | Raise e => Raise e
  end.

(** Returns the result and the stream after the read. *)
Definition deserialize (stream : BytesIO.t) (content_type : string)
    (content_length : option Z) : Result Value * BytesIO.t :=
  let (data, stream) := BytesIO.read stream (length_or_0 content_length) in
  (try_loads data, stream).
End Deserialize.

End JSONHandler.

(* ================================================================== *)
(** ** graceful.media.handlers.MediaHandlers *)

Module MediaHandlers.

Record t : Type := Build {
  default_media_type : string;
  handlers : PyDict.t BaseMediaHandler.t;
  allowed_media_types : list string
}.

(** The property [media_type]. *)
Definition media_type (self : t) : string := default_media_type self.

(** The handlers used when none are given: two JSON codec instances. *)
Definition builtin_handlers : PyDict.t BaseMediaHandler.t :=
  [("application/json", JSONHandler.__init__ 0 []);
   ("application/json; charset=UTF-8", JSONHandler.__init__ 1 [])].

(** [handlers or {...}]: an empty dictionary is falsy. *)
Definition handlers_or_builtin (handlers : option (PyDict.t BaseMediaHandler.t))
  : PyDict.t BaseMediaHandler.t :=
  match handlers with
  | Some (kv :: rest) => kv :: rest
  | _ => builtin_handlers
  end.

(** The pairs of the dict comprehension [extra_handlers], in the order the
    comprehension produces them. *)
Definition extra_pairs (given registered : PyDict.t BaseMediaHandler.t)
  : list (string * BaseMediaHandler.t) :=
  flat_map
    (fun handler =>
       map (fun media_type => (media_type, handler))
         (filter (fun media_type => negb (PyDict.contains registered media_type))
            (BaseMediaHandler.allowed_media_types handler)))
    (PyDict.values given).

(** [self.handlers] once [__init__] has added the codecs' own types. *)
Definition resolved_handlers (handlers : option (PyDict.t BaseMediaHandler.t))
  : PyDict.t BaseMediaHandler.t :=
  let registered := handlers_or_builtin handlers in
  match handlers with
  | Some given =>
      let extra_handlers := PyDict.of_items (extra_pairs given registered) in
      PyDict.update registered (PyDict.items extra_handlers)
  | None => registered
  end.

Definition __init__ (default_media_type : string)
    (handlers : option (PyDict.t BaseMediaHandler.t)) : Result t :=
  let registered := resolved_handlers handlers in
  if negb (PyDict.contains registered default_media_type) then
    Raise (ValueError
             (String.append "no handler for default media type "
                (quoted default_media_type)))
  else
    Ok (Build default_media_type registered
          (BaseMediaHandler.init_allowed default_media_type
             (PyDict.keys registered))).

(** [default_media_type or self.media_type] *)
Definition fallback (self : t) (default_media_type : option string) : string :=
  str_or default_media_type (media_type self).

(** The first statement of [lookup_handler]: the type that is looked up. *)
Definition effective_media_type (self : t) (media_type : option string)
    (default_media_type : option string) : string :=
  match media_type with
  | Some s =>
      if String.eqb s "*/*" || is_empty s
      then fallback self default_media_type
      else s
  | None => fallback self default_media_type
  end.

(** The exceptions named by the [except] clause of [lookup_handler]. *)
Definition caught (e : Exn) : bool :=
  match e with
  | AssertionError | KeyError _ | ValueError _ => true
  | _ => false
  end.

Section Lookup.
(** [mimeparse.best_match(supported, header)]: the best supported type,
    the empty string when nothing matches, [None] when it raises its
    parse error (a [ValueError]). *)
Variable best_match : list string -> string -> option string.

(** The body of the [try] block. *)
Definition resolve (self : t) (media_type : string)
  : Result BaseMediaHandler.t :=
  resolved <- match best_match (PyDict.keys (handlers self)) media_type with
              | Some r => Ok r
              | None => Raise (ValueError "Can't parse type")
              end ;;
  _ <- (if negb (is_empty resolved) then Raise AssertionError else Ok tt) ;;
  PyDict.getitem (handlers self) resolved.

(** Returns the result and the registry after the call. *)
Definition lookup_handler (self : t) (media_type : option string)
    (default_media_type : option string)
  : Result BaseMediaHandler.t * t :=
  let media_type :=
    effective_media_type self media_type default_media_type in
  match PyDict.get (handlers self) media_type with
  | Some handler => (Ok handler, self)
  | None =>
      match resolve self media_type with
      | Ok handler =>
          (Ok handler,
           Build (MediaHandlers.default_media_type self)
             (PyDict.set (handlers self) media_type handler)
             (allowed_media_types self))
      | Raise e =>
          if caught e then
            (Raise (HTTPUnsupportedMediaType
                      (BaseMediaHandler.unsupported_description media_type
                         (allowed_media_types self))), self)
          else (Raise e, self)
      end
  end.
End Lookup.

End MediaHandlers.

(* ================================================================== *)
(** ** graceful.serializers.BaseSerializer: accessors and description *)

Module SerializerAPI.


Section Describe.
(** [field.describe()] belongs to [graceful/fields.py] and stays a
    parameter. *)
Variable Description : Type.
Variable describe_field : BaseField.t -> Description.

Definition describe (self : BaseSerializer.t) : PyDict.t Description :=
  PyDict.of_items
    (map (fun nf => (fst nf, describe_field (snd nf))) (PyDict.items self)).
End Describe.

End SerializerAPI.

(* ================================================================== *)
(** ** graceful.media.json.JSONHandler: serialization *)

Module JSONCodec.

Section Dumps.
(** [json.dumps(obj, indent=...)] of the standard library. *)
Variable json_dumps : Value -> option Z -> string.

(** [indent or None] *)
Definition indent_or_None (indent : Z) : option Z :=
  if (indent =? 0)%Z then None else Some indent.

Definition dumps (obj : Value) (indent : Z) : string :=
  json_dumps obj (indent_or_None indent).

Definition serialize (media : Value) (content_type : string) (indent : Z)
  : string :=
  dumps media indent.
End Dumps.

End JSONCodec.

(* ================================================================== *)
(** ** Requests and responses *)

(** The part of [falcon.Request] that the handlers read: the body stream,
    the declared type and length, and [options.default_media_type]. *)
Module Request.
Record t : Type := Build {
  stream : BytesIO.t;
  content_type : option string;
  content_length : option Z;
  default_media_type : string
}.
End Request.

(** The part of [falcon.Response] that the handlers write. *)
Module Response.
Record t : Type := Build {
  content_type : option string;
  data : option (list byte);
  body : option string;
  default_media_type : string
}.
End Response.

(** What [serialize] may return: a [str] or [bytes]. *)
Inductive Serialized : Type :=
| SStr (s : string)
| SBytes (b : list byte).

(** [a or b] where both are [None] or a string. *)
Definition opt_or (a b : option string) : option string :=
  match a with
  | Some s => if is_empty s then b else Some s
  | None => b
  end.

(** ["{}".format(x)] where [x] is [None] or a string. *)
Definition format_opt (x : option string) : string :=
  match x with
  | Some s => s
  | None => "None"
  end.

(** [x in types] where [x] is [None] or a string. *)
Definition opt_mem (x : option string) (types : list string) : bool :=
  match x with
  | Some s => mem s types
  | None => false
  end.

(* ================================================================== *)
(** ** graceful.media.base.BaseMediaHandler: requests and responses *)

Module MediaHandling.

Section Methods.
(** The handler [self]: its allowed media types, its property [media_type]
    and its abstract methods [deserialize] and [serialize], with the
    keyword arguments of the call already passed. *)
Variable allowed_media_types : list string.
Variable media_type : string.
Variable deserialize :
  BytesIO.t -> option string -> option Z -> Result Value * BytesIO.t.
Variable serialize : Value -> option string -> Result Serialized.

(** Returns the result and the response after the call. *)
Definition handle_response (resp : Response.t) (media : Value)
  : Result Serialized * Response.t :=
  let resp :=
    Response.Build (Some media_type) (Response.data resp) (Response.body resp)
      (Response.default_media_type resp) in
  match serialize media (Response.content_type resp) with
  | Ok (SBytes data) =>
      (Ok (SBytes data),
       Response.Build (Response.content_type resp) (Some data)
         (Response.body resp) (Response.default_media_type resp))
  | Ok (SStr data) =>
      (Ok (SStr data),
       Response.Build (Response.content_type resp) (Response.data resp)
         (Some data) (Response.default_media_type resp))
  | Raise e => (Raise e, resp)
  end.

(** Returns the result and the request after the call. *)
Definition handle_request (req : Request.t) (content_type : option string)
  : Result Value * Request.t :=
  let content_type := opt_or content_type (Request.content_type req) in
  if opt_mem content_type allowed_media_types then
    let (result, stream) :=
      deserialize (Request.stream req) content_type
        (Request.content_length req) in
    (result,
     Request.Build stream (Request.content_type req)
       (Request.content_length req) (Request.default_media_type req))
  else
    (Raise (HTTPUnsupportedMediaType
              (BaseMediaHandler.unsupported_description
                 (format_opt content_type) allowed_media_types)), req).
End Methods.

End MediaHandling.

(* ================================================================== *)
(** ** graceful.media.handlers.MediaHandlers: delegation *)

Module Registry.

Section Codecs.
Variable best_match : list string -> string -> option string.
(** The methods [deserialize] and [serialize] of the registered codecs. *)
Variable codec_deserialize :
  BaseMediaHandler.t -> BytesIO.t -> option string -> option Z ->
  Result Value * BytesIO.t.
Variable codec_serialize :
  BaseMediaHandler.t -> Value -> option string -> Result Serialized.

(** [handler or self.lookup_handler(content_type)]: the handler, or the
    exception of the lookup, and the registry afterwards. *)
Definition handler_or_lookup (self : MediaHandlers.t)
    (handler : option BaseMediaHandler.t) (content_type : option string)
  : Result BaseMediaHandler.t * MediaHandlers.t :=
  match handler with
  | Some h => (Ok h, self)
  | None => MediaHandlers.lookup_handler best_match self content_type None
  end.

Definition deserialize (self : MediaHandlers.t) (stream : BytesIO.t)
    (content_type : option string) (content_length : option Z)
    (handler : option BaseMediaHandler.t)
  : (Result Value * BytesIO.t) * MediaHandlers.t :=
  match handler_or_lookup self handler content_type with
  | (Ok h, self) =>
      (codec_deserialize h stream content_type content_length, self)
  | (Raise e, self) => ((Raise e, stream), self)
  end.

Definition serialize (self : MediaHandlers.t) (media : Value)
    (content_type : option string) (handler : option BaseMediaHandler.t)
  : Result Serialized * MediaHandlers.t :=
  match handler_or_lookup self handler content_type with
  | (Ok h, self) => (codec_serialize h media content_type, self)
  | (Raise e, self) => (Raise e, self)
  end.

(** The value of [super().handle_response(...)] is dropped: the method
    returns [None]. *)
Definition handle_response (self : MediaHandlers.t) (resp : Response.t)
    (media : Value) : Result unit * Response.t * MediaHandlers.t :=
  let content_type :=
    opt_or (Response.content_type resp) (Some (MediaHandlers.media_type self)) in
  let default_media_type := Response.default_media_type resp in
  match MediaHandlers.lookup_handler best_match self content_type
          (Some default_media_type) with
  | (Raise e, self) => (Raise e, resp, self)
  | (Ok handler, self) =>
      match MediaHandling.handle_response (MediaHandlers.media_type self)
              (fun media content_type =>
                 fst (serialize self media content_type (Some handler)))
              resp media with
      | (Raise e, resp) => (Raise e, resp, self)
      | (Ok _, resp) =>
          (Ok tt,
           Response.Build (Some (BaseMediaHandler.media_type handler))
             (Response.data resp) (Response.body resp)
             (Response.default_media_type resp), self)
      end
  end.

(** The value of [super().handle_request(...)] is dropped as well. *)
Definition handle_request (self : MediaHandlers.t) (req : Request.t)
    (content_type : option string)
  : Result unit * Request.t * MediaHandlers.t :=
  let content_type := opt_or content_type (Request.content_type req) in
  let default_media_type := Request.default_media_type req in
  match MediaHandlers.lookup_handler best_match self content_type
          (Some default_media_type) with
  | (Raise e, self) => (Raise e, req, self)
  | (Ok handler, self) =>
      match MediaHandling.handle_request
              (MediaHandlers.allowed_media_types self)
              (fun stream content_type content_length =>
                 fst (deserialize self stream content_type content_length
                        (Some handler)))
              req content_type with
      | (Raise e, req) => (Raise e, req, self)
      | (Ok _, req) => (Ok tt, req, self)
      end
  end.
End Codecs.

End Registry.

(* ================================================================== *)
(** ** Serializers and codecs used as examples *)

(** The field class of the test-suite: external and internal values are
    the same, and validation accepts. *)
Definition ExampleField (source : option string)
    (many read_only write_only : bool) (label : string) : BaseField.t :=
  BaseField.Build source many read_only write_only false label
    "field for testing" Ok Ok Ok.

Definition plain_field (label : string) : BaseField.t :=
  ExampleField None false false false label.

(** [class BaseSerializer(object, metaclass=MetaSerializer)] *)
Definition object_class : Class := MkClass None [].
Definition BaseSerializer_class : Class :=
  MetaSerializer.__new__ [object_class] [].

(** [test_serializer_field_overriding], with one new field and one
    attribute that is not a field added to the derived class. *)
Definition parent_namespace : PyDict.t Attribute :=
  [("foo", AField (plain_field "parent")); ("bar", AField (plain_field "parent"))].
Definition TestParentSerializer : Class :=
  MetaSerializer.__new__ [BaseSerializer_class] parent_namespace.

(** [test_serializer_read_only_write_only_serialization] *)
Definition read_write_namespace : PyDict.t Attribute :=
  [("readonly", AField (ExampleField None false true false "A read-only field"));
   ("writeonly", AField (ExampleField None false false true "A write-only field"))].
Definition ReadWriteSerializer : BaseSerializer.t :=
  BaseSerializer.fields
    (MetaSerializer.__new__ [BaseSerializer_class] read_write_namespace).
Definition read_write_object : Value :=
  VDict [("writeonly", VStr "foo"); ("readonly", VStr "bar")].

(** A field that accepts integers only, as an integer field does. *)
Definition integer_field : BaseField.t :=
  BaseField.Build None false false false false "count" "an integer"
    (fun value => match value with
                  | VInt z => Ok (VInt z)
                  | _ => Raise (TypeError "an integer is required")
                  end)
    (fun data => match data with
                 | VInt z => Ok (VInt z)
                 | _ => Raise (ValueError "invalid literal for int()")
                 end)
    Ok.

Definition CountedSerializer : BaseSerializer.t :=
  BaseSerializer.fields
    (MetaSerializer.__new__ [BaseSerializer_class]
       [("count", AField integer_field); ("name", AField (plain_field "name"))]).

(** [test_serialiser_sources_representation] *)
Definition SourcesSerializer : BaseSerializer.t :=
  BaseSerializer.fields
    (MetaSerializer.__new__ [BaseSerializer_class]
       [("name", AField (ExampleField (Some "_name") false false false "name"));
        ("address", AField (ExampleField (Some "_address") false false false "address"))]).
Definition sources_object : PyDict.t Value :=
  [("_name", VStr "John"); ("_address", VStr "US"); ("gender", VStr "male")].

(** [test_serializer_source_field_with_wildcard] *)
Definition StarSerializer : BaseSerializer.t :=
  BaseSerializer.fields
    (MetaSerializer.__new__ [BaseSerializer_class]
       [("starfield", AField (ExampleField (Some "*") false false false "whole object"))]).
Definition star_object : PyDict.t Value :=
  [("*", VInt 1); ("foo", VStr "bar")].

(** A parser that knows the empty JSON object only; enough to run the codec
    on examples. *)
Definition sample_loads (data : list byte) : Result Value :=
  match data with
  | [x7b; x7d] => Ok (VDict [])
  | _ => Raise (ValueError "Expecting value")
  end.

(** The stream [io.BytesIO(b'{}')]. *)
Definition empty_object_stream : BytesIO.t := BytesIO.Build [x7b; x7d] 0.

(** The text of a media type before its parameters. *)
Definition type_and_subtype (media_type : string) : string :=
  match String.index 0 ";" media_type with
  | Some n => String.substring 0 n media_type
  | None => media_type
  end.

(** A matcher to run the registry on examples: it fails to parse a header
    without a slash, and otherwise returns the last supported type with the
    header's type and subtype, or the empty string. *)
Definition sample_best_match (supported : list string) (header : string)
  : option string :=
  match String.index 0 "/" header with
  | None => None
  | Some _ =>
      Some (last (filter (fun s => String.eqb (type_and_subtype s)
                                     (type_and_subtype header)) supported)
              EmptyString)
  end.

(** [MediaHandlers()] *)
Definition default_registry : MediaHandlers.t :=
  MediaHandlers.Build "application/json" MediaHandlers.builtin_handlers
    ["application/json"; "application/json; charset=UTF-8"].

(** The handlers of [test_media_handlers_unknown_default_media_type]. *)
Definition json_only : PyDict.t BaseMediaHandler.t :=
  [("application/json", JSONHandler.__init__ 2 [])].

(** The first registry of [test_custom_extra_media_handlers]. *)
Definition json_with_alias : PyDict.t BaseMediaHandler.t :=
  [("application/json",
    JSONHandler.__init__ 3 ["application/json; charset=UTF-8"])].

(** A printer that knows the empty JSON object only, the counterpart of
    [sample_loads]. *)
Definition sample_dumps (obj : Value) (indent : option Z) : string :=
  match obj with
  | VDict [] => "{}"
  | _ => "null"
  end.

(** A request with the body [{}] declared as JSON of length two. *)
Definition json_request : Request.t :=
  Request.Build empty_object_stream (Some "application/json") (Some 2%Z)
    "application/json".

(** A response that nothing has been written to. *)
Definition fresh_response : Response.t :=
  Response.Build None None None "application/json".

(** Every codec of the examples is a JSON codec. *)
Definition sample_codec_deserialize (handler : BaseMediaHandler.t)
    (stream : BytesIO.t) (content_type : option string)
    (content_length : option Z) : Result Value * BytesIO.t :=
  JSONHandler.deserialize sample_loads stream (format_opt content_type)
    content_length.

Definition sample_codec_serialize (handler : BaseMediaHandler.t)
    (media : Value) (content_type : option string) : Result Serialized :=
  Ok (SStr (JSONCodec.serialize sample_dumps media (format_opt content_type) 0)).

(** A serializer with one [many] field, as in
    [test_serialiser_with_field_many]. *)
Definition TagsSerializer : BaseSerializer.t :=
  BaseSerializer.fields
    (MetaSerializer.__new__ [BaseSerializer_class]
       [("tags", AField (ExampleField None true false false "tags"))]).
Definition tags_object : Value :=
  VDict [("tags", VList [VStr "aa"; VStr "bb"])].

(** A registry that has the empty string among its keys: the one place
    where a lookup without exact match returns a codec and caches it. *)
Definition registry_with_blank_key : MediaHandlers.t :=
  MediaHandlers.Build "application/json"
    [("application/json", JSONHandler.__init__ 4 []);
     (EmptyString, JSONHandler.__init__ 5 [])]
    ["application/json"; EmptyString].

(* ================================================================== *)
(** ** Vocabulary of the properties *)



(** What [from_representation] does with the external value of one field. *)
Definition convert (field : BaseField.t) (external : Value) : Result Value :=
  internal <- BaseField.from_representation field external ;;
  BaseField.validate field internal.

(** The key of the internal object that a declared field reads and writes. *)
Definition key (nf : string * BaseField.t) : string :=
  BaseSerializer.source_or_name (snd nf) (fst nf).

(** The keys under which [from_representation] stores its values. *)
Definition sources (self : BaseSerializer.t) : list string := map key self.

(** [needle in haystack] on strings. *)
Definition occurs_in (needle haystack : string) : Prop :=
  exists before after,
    haystack = String.append before (String.append needle after).

(** Equality of dictionaries as Python's [==] sees it: the same value under
    every key, whatever the order. *)
Definition dict_eq {V : Type} (d1 d2 : PyDict.t V) : Prop :=
  forall k, PyDict.get d1 k = PyDict.get d2 k.

(* ================================================================== *)
(** ** Facts about lists of names *)

(** Proves [NoDup] of a list of string literals. *)
Ltac distinct_names :=
  repeat (constructor; [simpl; intuition discriminate|]); constructor.

Lemma mem_In (k : string) (l : list string) : mem k l = true <-> In k l.
Proof.
  unfold mem. rewrite existsb_exists. split.
  - intros [x [Hin Heq]]. apply String.eqb_eq in Heq. now subst.
  - intros Hin. exists k. split; [assumption | apply String.eqb_refl].
Qed.

Lemma mem_false (k : string) (l : list string) : mem k l = false <-> ~ In k l.
Proof.
  rewrite <- mem_In. destruct (mem k l); intuition congruence.
Qed.

Lemma filter_filter {A : Type} (p q : A -> bool) (l : list A) :
  filter p (filter q l) = filter (fun x => q x && p x) l.
Proof.
  induction l as [|a l IH]; simpl; [reflexivity|].
  destruct (q a); simpl; [destruct (p a)|]; now rewrite IH.
Qed.

Lemma first_occurrences_In (l : list string) (k : string) :
  In k (first_occurrences l) <-> In k l.
Proof.
  induction l as [|a l IH]; simpl; [tauto|].
  rewrite filter_In, IH, negb_true_iff, String.eqb_neq.
  destruct (string_dec a k); intuition.
Qed.

Lemma NoDup_filter {A : Type} (p : A -> bool) (l : list A) :
  NoDup l -> NoDup (filter p l).
Proof.
  induction 1 as [|a l Hnin Hnd IH]; simpl; [constructor|].
  destruct (p a); [constructor|]; auto.
  rewrite filter_In. tauto.
Qed.

Lemma first_occurrences_NoDup (l : list string) : NoDup (first_occurrences l).
Proof.
  induction l as [|a l IH]; simpl; constructor.
  - rewrite filter_In, negb_true_iff, String.eqb_neq. tauto.
  - now apply NoDup_filter.
Qed.


Lemma first_occurrences_filter (p : string -> bool) (l : list string) :
  first_occurrences (filter p l) = filter p (first_occurrences l).
Proof.
  induction l as [|a l IH]; simpl; [reflexivity|].
  destruct (p a) eqn:Hp; simpl.
  - rewrite ?Hp, IH, !filter_filter. f_equal. apply filter_ext.
    intros x. apply andb_comm.
  - rewrite IH, filter_filter. apply filter_ext_in. intros x _.
    destruct (String.eqb a x) eqn:Hax; simpl; [|reflexivity].
    apply String.eqb_eq in Hax. now subst.
Qed.


(* ================================================================== *)
(** ** Facts about dictionaries *)

Section PyDictFacts.
Variable V : Type.
Implicit Types (d : PyDict.t V) (k : string) (v : V).

Lemma get_set d k v k' :
  PyDict.get (PyDict.set d k v) k' =
  if String.eqb k k' then Some v else PyDict.get d k'.
Proof.
  induction d as [|[k0 v0] d IH]; simpl.
  - reflexivity.
  - destruct (String.eqb k0 k) eqn:H0; simpl.
    + apply String.eqb_eq in H0. subst k0.
      destruct (String.eqb k k'); reflexivity.
    + destruct (String.eqb k0 k') eqn:H1; [|exact IH].
      apply String.eqb_eq in H1. subst k0. now rewrite String.eqb_sym, H0.
Qed.

Lemma get_set_same d k v : PyDict.get (PyDict.set d k v) k = Some v.
Proof. now rewrite get_set, String.eqb_refl. Qed.

Lemma get_set_other d k v k' :
  k <> k' -> PyDict.get (PyDict.set d k v) k' = PyDict.get d k'.
Proof. intros H. apply String.eqb_neq in H. now rewrite get_set, H. Qed.

Lemma get_None d k : PyDict.get d k = None <-> ~ In k (PyDict.keys d).
Proof.
  induction d as [|[k0 v0] d IH]; simpl; [tauto|].
  destruct (String.eqb k0 k) eqn:H0.
  - apply String.eqb_eq in H0. split; [discriminate | tauto].
  - apply String.eqb_neq in H0. rewrite IH. tauto.
Qed.

Lemma get_Some_In d k v : PyDict.get d k = Some v -> In (k, v) d.
Proof.
  induction d as [|[k0 v0] d IH]; simpl; [discriminate|].
  destruct (String.eqb k0 k) eqn:H0.
  - apply String.eqb_eq in H0. intros [= ->]. left. now subst.
  - auto.
Qed.

Lemma In_get d k v : NoDup (PyDict.keys d) -> In (k, v) d -> PyDict.get d k = Some v.
Proof.
  induction d as [|[k0 v0] d IH]; simpl; [tauto|].
  intros Hnd [Heq | Hin]; inversion Hnd as [|? ? Hnin Hnd']; subst.
  - injection Heq as -> ->. now rewrite String.eqb_refl.
  - destruct (String.eqb k0 k) eqn:H0; [|auto].
    apply String.eqb_eq in H0. subst k0. exfalso. apply Hnin.
    change k with (fst (k, v)). now apply in_map.
Qed.

Lemma contains_In d k : PyDict.contains d k = true <-> In k (PyDict.keys d).
Proof.
  unfold PyDict.contains. destruct (PyDict.get d k) eqn:H.
  - split; [intros _ | reflexivity].
    apply get_Some_In in H. change k with (fst (k, v)). now apply in_map.
  - apply get_None in H. split; [discriminate | tauto].
Qed.

Lemma contains_mem d k : PyDict.contains d k = mem k (PyDict.keys d).
Proof.
  destruct (mem k (PyDict.keys d)) eqn:H.
  - now apply contains_In, mem_In.
  - apply mem_false in H. rewrite <- contains_In in H.
    now destruct (PyDict.contains d k).
Qed.

Lemma keys_set d k v :
  PyDict.keys (PyDict.set d k v) =
  if PyDict.contains d k then PyDict.keys d else PyDict.keys d ++ [k].
Proof.
  unfold PyDict.contains.
  induction d as [|[k0 v0] d IH]; simpl; [reflexivity|].
  destruct (String.eqb k0 k); simpl; [reflexivity|].
  rewrite IH. now destruct (PyDict.get d k).
Qed.

Lemma keys_update d (pairs : list (string * V)) :
  PyDict.keys (PyDict.update d pairs) =
  PyDict.keys d ++
  filter (fun k => negb (mem k (PyDict.keys d)))
    (first_occurrences (map fst pairs)).
Proof.
  revert d. induction pairs as [|[k v] pairs IH]; intros d; simpl.
  - now rewrite app_nil_r.
  - unfold PyDict.update in *. simpl. rewrite IH, keys_set, contains_mem.
    destruct (mem k (PyDict.keys d)) eqn:Hk; simpl.
    + f_equal. rewrite filter_filter. apply filter_ext_in. intros x _.
      destruct (String.eqb k x) eqn:Hx; simpl; [|reflexivity].
      apply String.eqb_eq in Hx. subst x. now rewrite Hk.
    + rewrite <- app_assoc. simpl. do 2 f_equal.
      rewrite filter_filter. apply filter_ext. intros x.
      unfold mem. rewrite existsb_app. simpl.
      rewrite orb_false_r, negb_orb, (String.eqb_sym x k). apply andb_comm.
Qed.

Lemma keys_of_items (pairs : list (string * V)) :
  PyDict.keys (PyDict.of_items pairs) = first_occurrences (map fst pairs).
Proof.
  unfold PyDict.of_items. rewrite keys_update. simpl.
  apply forallb_filter_id, forallb_forall. reflexivity.
Qed.

Lemma get_app (l1 l2 : PyDict.t V) k :
  PyDict.get (l1 ++ l2) k =
  match PyDict.get l1 k with
  | Some v => Some v
  | None => PyDict.get l2 k
  end.
Proof.
  induction l1 as [|[k0 v0] l1 IH]; simpl; [reflexivity|].
  now destruct (String.eqb k0 k).
Qed.

(** The last pair written under a key is the one that is read. *)
Lemma get_update d (pairs : list (string * V)) k :
  PyDict.get (PyDict.update d pairs) k =
  match PyDict.get (rev pairs) k with
  | Some v => Some v
  | None => PyDict.get d k
  end.
Proof.
  revert d. induction pairs as [|[k0 v0] pairs IH]; intros d; simpl.
  - reflexivity.
  - unfold PyDict.update in *. simpl. rewrite IH, get_app, get_set. simpl.
    destruct (PyDict.get (rev pairs) k); [reflexivity|].
    now destruct (String.eqb k0 k).
Qed.

Lemma get_of_items (pairs : list (string * V)) k :
  PyDict.get (PyDict.of_items pairs) k = PyDict.get (rev pairs) k.
Proof.
  unfold PyDict.of_items. rewrite get_update. simpl.
  now destruct (PyDict.get (rev pairs) k).
Qed.

Lemma get_restrict d (ks : list string) k :
  PyDict.get (PyDict.restrict d ks) k =
  if mem k ks then PyDict.get d k else None.
Proof.
  unfold PyDict.restrict.
  induction d as [|[k0 v0] d IH]; simpl.
  - now destruct (mem k ks).
  - destruct (String.eqb k0 k) eqn:H0.
    + apply String.eqb_eq in H0. subst k0.
      destruct (mem k ks) eqn:Hm; simpl.
      * now rewrite String.eqb_refl.
      * exact IH.
    + destruct (mem k0 ks); simpl; [rewrite H0|]; exact IH.
Qed.

End PyDictFacts.

(* ================================================================== *)
(** ** MetaSerializer: the field storage of a class *)

Section FieldStorage.






End FieldStorage.


(* ================================================================== *)
(** ** BaseSerializer: to_representation *)

Section ToRepresentation.

(** The loop writes one entry per field and never looks at [read_only] or
    [write_only]. *)
Lemma to_representation_loop_keys fields obj acc representation :
  BaseSerializer.to_representation_loop fields obj acc = Ok representation ->
  forall name,
    In name (PyDict.keys representation) <->
    In name (PyDict.keys acc) \/ In name (map fst fields).
Proof.
  revert acc. induction fields as [|[n f] fields IH]; simpl; intros acc H name.
  - injection H as <-. tauto.
  - destruct (BaseSerializer.represent f _) as [v|e]; simpl in H; [|discriminate].
    rewrite (IH _ H name), keys_set.
    destruct (PyDict.contains acc n) eqn:Hc.
    + apply contains_In in Hc. intuition (subst; auto).
    + rewrite in_app_iff. simpl. tauto.
Qed.

Lemma to_representation_keys (self : BaseSerializer.t) obj representation :
  BaseSerializer.to_representation self obj = Ok representation ->
  forall name field,
    In (name, field) self -> PyDict.contains representation name = true.
Proof.
  intros H name field Hin. apply contains_In.
  apply (to_representation_loop_keys _ _ _ H). right.
  change name with (fst (name, field)). now apply in_map.
Qed.

(** C1.  [to_representation] does not omit a write-only field: whenever it
    returns a representation, a field marked [write_only] has an entry in
    it, as every other field has. *)
Theorem to_representation_keeps_write_only
    (self : BaseSerializer.t) (obj : Value) (representation : PyDict.t Value)
    (name : string) (field : BaseField.t) :
  BaseSerializer.to_representation self obj = Ok representation ->
  In (name, field) self ->
  BaseField.write_only field = true ->
  PyDict.contains representation name = true.
Proof.
  intros Hrun Hin _. exact (to_representation_keys self obj Hrun name field Hin).
Qed.

(** [test_serializer_read_only_write_only_serialization]: on the object
    [{"writeonly": "foo", "readonly": "bar"}] both entries are returned,
    where the test expects [{"readonly": "bar"}]. *)
Lemma to_representation_keeps_write_only_witness :
  BaseSerializer.to_representation ReadWriteSerializer read_write_object
  = Ok [("readonly", VStr "bar"); ("writeonly", VStr "foo")]
  /\ PyDict.contains [("readonly", VStr "bar"); ("writeonly", VStr "foo")]
       "writeonly" = true.
Proof.
  assert (Hrun : BaseSerializer.to_representation ReadWriteSerializer
                   read_write_object
                 = Ok [("readonly", VStr "bar"); ("writeonly", VStr "foo")])
    by reflexivity.
  split; [exact Hrun|].
  apply (@to_representation_keeps_write_only ReadWriteSerializer
           read_write_object _ "writeonly"
           (ExampleField None false false true "A write-only field") Hrun).
  - simpl. auto.
  - reflexivity.
Defined.

End ToRepresentation.

(* ================================================================== *)
(** ** BaseSerializer: from_representation *)

Section FromRepresentation.

Implicit Types (fields : list (string * BaseField.t))
               (representation acc : PyDict.t Value).

Lemma from_representation_loop_step name field fields representation acc :
  BaseSerializer.from_representation_loop ((name, field) :: fields)
    representation false acc =
  match PyDict.get representation name with
  | None => Raise (KeyError name)
  | Some external =>
      value <- convert field external ;;
      BaseSerializer.from_representation_loop fields representation false
        (PyDict.set acc (BaseSerializer.source_or_name field name) value)
  end.
Proof.
  simpl. unfold PyDict.getitem, convert.
  destruct (PyDict.get representation name) as [external|]; simpl; [|reflexivity].
  now destruct (BaseField.from_representation field external).
Qed.

(** With [partial] false an absent name always ends the comprehension with
    an exception, and the exception is that of the first field, in
    declaration order, that is absent or does not convert: the key error of
    its name, or what its conversion raised.  That field is the one with
    the absent name or stands before it. *)
Lemma from_representation_loop_first_failure
    fields representation acc name field :
  In (name, field) fields ->
  PyDict.get representation name = None ->
  exists before n f after e,
    fields = before ++ (n, f) :: after
    /\ (forall n' f', In (n', f') before ->
          exists external value,
            PyDict.get representation n' = Some external
            /\ convert f' external = Ok value)
    /\ In (name, field) ((n, f) :: after)
    /\ ((PyDict.get representation n = None /\ e = KeyError n)
        \/ (exists external,
              PyDict.get representation n = Some external
              /\ convert f external = Raise e))
    /\ BaseSerializer.from_representation_loop fields representation false acc
       = Raise e.
Proof.
  revert acc. induction fields as [|[n f] fields IH]; intros acc Hin Habs.
  - destruct Hin.
  - rewrite from_representation_loop_step.
    destruct (PyDict.get representation n) as [external|] eqn:Hn.
    + destruct (convert f external) as [value|e] eqn:Hc; simpl.
      * assert (Hrest : In (name, field) fields).
        { destruct Hin as [Heq|Hin]; [|exact Hin].
          injection Heq as -> _. congruence. }
        destruct (IH (PyDict.set acc (BaseSerializer.source_or_name f n) value)
                    Hrest Habs)
          as (before & n1 & f1 & after & e & -> & Hbefore & Hpos & Hwhy & Hrun).
        exists ((n, f) :: before), n1, f1, after, e.
        split; [reflexivity|]. split; [|auto].
        intros n' f' [Heq|Hin']; [|now apply Hbefore].
        injection Heq as <- <-. exists external, value. auto.
      * exists [], n, f, fields, e. split; [reflexivity|].
        split; [intros n' f' []|]. split; [exact Hin|].
        split; [|reflexivity]. right. exists external. auto.
    + exists [], n, f, fields, (KeyError n). split; [reflexivity|].
      split; [intros n' f' []|]. split; [exact Hin|].
      split; [|reflexivity]. left. auto.
Qed.

Lemma from_representation_loop_first_absent
    before name field after representation acc :
  PyDict.get representation name = None ->
  (forall n f, In (n, f) before ->
     exists external value,
       PyDict.get representation n = Some external
       /\ convert f external = Ok value) ->
  BaseSerializer.from_representation_loop (before ++ (name, field) :: after)
    representation false acc
  = Raise (KeyError name).
Proof.
  intros Habs. revert acc.
  induction before as [|[n f] before IH]; intros acc Hbefore.
  - simpl app. now rewrite from_representation_loop_step, Habs.
  - simpl app. rewrite from_representation_loop_step.
    destruct (Hbefore n f (or_introl eq_refl)) as (external & value & -> & ->).
    simpl. apply IH. intros n' f' Hin. apply Hbefore. now right.
Qed.

(** C9, as the code has it.  If a field's external name is absent from the
    representation and [partial] is false, [from_representation] returns
    no dictionary: it raises, and the exception is decided by the first
    field, in declaration order, that is absent from the representation or
    whose [from_representation] or [validate] raises.  That field is the
    field with the absent name or one declared before it; every field
    before it is present and converts; if it is absent the exception is
    the key error of its name, and otherwise it is the exception that its
    conversion raised.  So the exception is the key error of [name] itself
    whenever every field declared before [name] is present and converts
    and validates. *)
Theorem from_representation_absent_field
    (self : BaseSerializer.t) (representation : PyDict.t Value)
    (name : string) (field : BaseField.t) :
  In (name, field) self ->
  PyDict.get representation name = None ->
  (exists before n f after e,
      self = before ++ (n, f) :: after
      /\ (forall n' f', In (n', f') before ->
            exists external value,
              PyDict.get representation n' = Some external
              /\ convert f' external = Ok value)
      /\ In (name, field) ((n, f) :: after)
      /\ ((PyDict.get representation n = None /\ e = KeyError n)
          \/ (exists external,
                PyDict.get representation n = Some external
                /\ convert f external = Raise e))
      /\ BaseSerializer.from_representation self representation false
         = Raise e)
  /\ (forall before after,
        self = before ++ (name, field) :: after ->
        (forall n f, In (n, f) before ->
           exists external value,
             PyDict.get representation n = Some external
             /\ convert f external = Ok value) ->
        BaseSerializer.from_representation self representation false
        = Raise (KeyError name)).
Proof.
  intros Hin Habs. split.
  - now apply from_representation_loop_first_failure.
  - intros before after -> Hbefore.
    now apply from_representation_loop_first_absent.
Qed.

(** A representation with [count] but without [name]: the key error of
    [name] is raised. *)
Lemma from_representation_absent_field_witness :
  In ("name", plain_field "name") CountedSerializer
  /\ PyDict.get [("count", VInt 3)] "name" = None
  /\ BaseSerializer.from_representation CountedSerializer
       [("count", VInt 3)] false = Raise (KeyError "name").
Proof.
  assert (Hin : In ("name", plain_field "name") CountedSerializer)
    by (simpl; auto).
  assert (Habs : PyDict.get [("count", VInt 3)] "name" = None) by reflexivity.
  split; [exact Hin|]. split; [exact Habs|].
  apply (proj2 (from_representation_absent_field CountedSerializer
                  [("count", VInt 3)] "name" (plain_field "name") Hin Habs)
           [("count", integer_field)] []); [reflexivity|].
  intros n f [Heq|[]]. injection Heq as <- <-.
  exists (VInt 3), (VInt 3). split; reflexivity.
Defined.

(** C9 as stated fails.  [name] is absent, but [count] comes first and its
    value is not an integer: the field's own [ValueError] is raised, not a
    key error. *)
Lemma from_representation_absent_field_counterexample :
  In ("name", plain_field "name") CountedSerializer
  /\ PyDict.get [("count", VStr "three")] "name" = None
  /\ BaseSerializer.from_representation CountedSerializer
       [("count", VStr "three")] false
     = Raise (ValueError "invalid literal for int()")
  /\ ~ (exists key,
          BaseSerializer.from_representation CountedSerializer
            [("count", VStr "three")] false = Raise (KeyError key)).
Proof.
  repeat split.
  - simpl. auto.
  - intros [key H]. discriminate H.
Qed.

End FromRepresentation.

(* ================================================================== *)
(** ** BaseSerializer: the round trip *)

Section RoundTrip.

Lemma to_representation_loop_ok fields obj acc
    (ext : string * BaseField.t -> Value) :
  (forall nf, In nf fields ->
     BaseSerializer.represent (snd nf)
       (BaseSerializer.get_attribute obj (key nf)) = Ok (ext nf)) ->
  BaseSerializer.to_representation_loop fields obj acc =
  Ok (PyDict.update acc (map (fun nf => (fst nf, ext nf)) fields)).
Proof.
  revert acc. induction fields as [|[n f] fields IH]; intros acc H; simpl.
  - reflexivity.
  - pose proof (H (n, f) (or_introl eq_refl)) as Hnf. unfold key in Hnf.
    simpl in Hnf. rewrite Hnf. simpl. rewrite IH; [reflexivity|].
    intros nf Hin. apply H. now right.
Qed.

Lemma from_representation_loop_ok fields representation acc
    (val : string * BaseField.t -> Value) :
  (forall nf, In nf fields ->
     exists external,
       PyDict.get representation (fst nf) = Some external
       /\ convert (snd nf) external = Ok (val nf)) ->
  BaseSerializer.from_representation_loop fields representation false acc =
  Ok (PyDict.update acc (map (fun nf => (key nf, val nf)) fields)).
Proof.
  revert acc. induction fields as [|[n f] fields IH]; intros acc H.
  - reflexivity.
  - rewrite from_representation_loop_step.
    destruct (H (n, f) (or_introl eq_refl)) as (external & Hget & Hconv).
    simpl in Hget, Hconv. rewrite Hget, Hconv. simpl. rewrite IH; [reflexivity|].
    intros nf Hin. apply H. now right.
Qed.

Lemma mem_ext (k : string) (l1 l2 : list string) :
  (In k l1 <-> In k l2) -> mem k l1 = mem k l2.
Proof.
  intros H. destruct (mem k l2) eqn:H2.
  - apply mem_In, H, mem_In, H2.
  - apply mem_false. rewrite H. now apply mem_false.
Qed.

(** Pairs copied from [x] read back as [x] does, on their keys. *)
Lemma get_copied (x pairs : PyDict.t Value) k :
  (forall k' v, In (k', v) pairs -> PyDict.get x k' = Some v) ->
  PyDict.get pairs k =
  if mem k (PyDict.keys pairs) then PyDict.get x k else None.
Proof.
  induction pairs as [|[k0 v0] pairs IH]; intros H; simpl; [reflexivity|].
  rewrite (String.eqb_sym k k0).
  destruct (String.eqb k0 k) eqn:H0; simpl.
  - apply String.eqb_eq in H0. subst k0. symmetry. apply H. now left.
  - apply IH. intros k' v Hin. apply H. now right.
Qed.

(** C5, as the code has it.  Take a serializer none of whose fields is
    [many] or has the wildcard source, and a mapping [x] that holds, under
    each field's source key, a value other than [None] which the field's
    [to_representation] maps to an external value that its
    [from_representation] maps back and its [validate] returns.  Then
    [to_representation] succeeds, [from_representation] of the result
    succeeds, and the dictionary it returns equals [x] restricted to the
    source keys.  Each field is read from its source key of [x], written
    under the field name in the representation, and written back under
    the source key. *)
Theorem round_trip (self : BaseSerializer.t) (x : PyDict.t Value) :
  NoDup (PyDict.keys self) ->
  (forall name field, In (name, field) self ->
     BaseField.many field = false
     /\ BaseSerializer.source_or_name field name <> "*"
     /\ exists value external,
          PyDict.get x (BaseSerializer.source_or_name field name) = Some value
          /\ value <> VNone
          /\ BaseField.to_representation field value = Ok external
          /\ BaseField.from_representation field external = Ok value
          /\ BaseField.validate field value = Ok value) ->
  exists representation y,
    BaseSerializer.to_representation self (VDict x) = Ok representation
    /\ BaseSerializer.from_representation self representation false = Ok y
    /\ dict_eq y (PyDict.restrict x (sources self))
    /\ (forall name field, In (name, field) self ->
          exists value external,
            PyDict.get x (BaseSerializer.source_or_name field name) = Some value
            /\ BaseField.to_representation field value = Ok external
            /\ PyDict.get representation name = Some external
            /\ PyDict.get y (BaseSerializer.source_or_name field name)
               = Some value).
Proof.
  intros Hnd H.
  set (val := fun nf => BaseSerializer.or_none (PyDict.get x (key nf))).
  set (ext := fun nf : string * BaseField.t =>
                match BaseField.to_representation (snd nf) (val nf) with
                | Ok e => e
                | Raise _ => VNone
                end).
  set (representation :=
         PyDict.update PyDict.empty (map (fun nf => (fst nf, ext nf)) self)).
  set (y := PyDict.update PyDict.empty (map (fun nf => (key nf, val nf)) self)).
  assert (Hfield : forall name field, In (name, field) self ->
            exists value,
              PyDict.get x (BaseSerializer.source_or_name field name) = Some value
              /\ val (name, field) = value
              /\ BaseSerializer.represent field
                   (BaseSerializer.get_attribute (VDict x) (key (name, field)))
                 = Ok (ext (name, field))
              /\ BaseField.to_representation field value = Ok (ext (name, field))
              /\ convert field (ext (name, field)) = Ok value).
  { intros name field Hin.
    destruct (H name field Hin)
      as (Hmany & Hstar & value & external & Hx & Hnone & Hto & Hfrom & Hval).
    exists value. unfold ext, val, key, BaseSerializer.get_attribute. simpl.
    apply String.eqb_neq in Hstar. rewrite Hstar, Hx. simpl. rewrite Hto.
    repeat split; trivial.
    - unfold BaseSerializer.represent. rewrite Hmany.
      destruct value; congruence.
    - unfold convert. rewrite Hfrom. simpl. exact Hval. }
  assert (Hrep : forall name field, In (name, field) self ->
            PyDict.get representation name = Some (ext (name, field))).
  { intros name field Hin. unfold representation.
    rewrite get_update. simpl.
    rewrite (@In_get _ (rev (map (fun nf => (fst nf, ext nf)) self))
               name (ext (name, field))); [reflexivity | |].
    - unfold PyDict.keys. rewrite map_rev, map_map. simpl.
      now apply NoDup_rev.
    - apply -> in_rev.
      apply (in_map (fun nf => (fst nf, ext nf)) self (name, field) Hin). }
  assert (Hy : forall k, PyDict.get y k =
                         if mem k (sources self) then PyDict.get x k else None).
  { intros k. unfold y. rewrite get_update. simpl.
    rewrite (@get_copied x (rev (map (fun nf => (key nf, val nf)) self)) k).
    - rewrite (@mem_ext k _ (sources self)).
      + now destruct (mem k (sources self)), (PyDict.get x k).
      + unfold PyDict.keys, sources. rewrite map_rev, <- in_rev, map_map.
        reflexivity.
    - intros k' v Hin. apply in_rev, in_map_iff in Hin.
      destruct Hin as ([name field] & Heq & Hin). injection Heq as <- <-.
      destruct (Hfield name field Hin) as (value & Hx & Hv & _).
      unfold key. simpl. congruence. }
  exists representation, y. repeat split.
  - apply to_representation_loop_ok. intros [name field] Hin.
    destruct (Hfield name field Hin) as (value & _ & _ & Hr & _). exact Hr.
  - apply from_representation_loop_ok. intros [name field] Hin.
    exists (ext (name, field)). split; [now apply Hrep|]. simpl.
    destruct (Hfield name field Hin) as (value & _ & Hv & _ & _ & Hc).
    now rewrite Hv.
  - intros k. rewrite Hy, get_restrict. reflexivity.
  - intros name field Hin.
    destruct (Hfield name field Hin) as (value & Hx & Hv & _ & Hto & _).
    exists value, (ext (name, field)). repeat split; trivial.
    + now apply Hrep.
    + rewrite Hy, Hx.
      assert (Hm : mem (BaseSerializer.source_or_name field name) (sources self)
                   = true).
      { apply mem_In. unfold sources.
        apply (in_map (fun nf => BaseSerializer.source_or_name (snd nf) (fst nf))
                 self (name, field) Hin). }
      now rewrite Hm.
Qed.

End RoundTrip.

Section RoundTripExamples.

(** [test_serialiser_sources_representation]: [name] is read from [_name],
    written to [name], and written back under [_name]. *)
Example sources_representation :
  BaseSerializer.to_representation SourcesSerializer (VDict sources_object)
  = Ok [("name", VStr "John"); ("address", VStr "US")]
  /\ BaseSerializer.from_representation SourcesSerializer
       [("name", VStr "John"); ("address", VStr "US")] false
     = Ok [("_name", VStr "John"); ("_address", VStr "US")].
Proof. split; reflexivity. Qed.

Lemma round_trip_witness :
  NoDup (PyDict.keys SourcesSerializer)
  /\ exists representation y,
       BaseSerializer.to_representation SourcesSerializer (VDict sources_object)
       = Ok representation
       /\ BaseSerializer.from_representation SourcesSerializer representation false
          = Ok y
       /\ dict_eq y (PyDict.restrict sources_object (sources SourcesSerializer)).
Proof.
  assert (Hnd : NoDup (PyDict.keys SourcesSerializer)) by distinct_names.
  split; [exact Hnd|].
  destruct (round_trip SourcesSerializer sources_object Hnd)
    as (representation & y & Hto & Hfrom & Heq & _).
  - intros name field [Heq | [Heq | []]]; injection Heq as <- <-;
      (split; [reflexivity|]); (split; [discriminate|]).
    + exists (VStr "John"), (VStr "John"). repeat split. discriminate.
    + exists (VStr "US"), (VStr "US"). repeat split. discriminate.
  - exists representation, y. auto.
Defined.

(** C5 as stated fails for the wildcard source.  The field [starfield] has
    identity transforms and an accepting validator, and the mapping has the
    key ["*"]; the field is given the whole mapping, which comes back under
    the key ["*"] in place of the value the mapping holds there. *)
Lemma round_trip_counterexample :
  PyDict.get star_object "*" = Some (VInt 1)
  /\ BaseSerializer.to_representation StarSerializer (VDict star_object)
     = Ok [("starfield", VDict star_object)]
  /\ BaseSerializer.from_representation StarSerializer
       [("starfield", VDict star_object)] false
     = Ok [("*", VDict star_object)]
  /\ ~ dict_eq [("*", VDict star_object)]
         (PyDict.restrict star_object (sources StarSerializer)).
Proof.
  repeat split. intros H. specialize (H "*"). discriminate H.
Qed.

End RoundTripExamples.

(* ================================================================== *)
(** ** JSONHandler: deserialize *)

Section Deserialize.

Variable loads : list byte -> Result Value.

(** C3, as the code has it.  [deserialize] hands to [loads] the bytes it has
    read and leaves the stream behind them.  With a positive declared length
    these are the first [content_length] bytes that remain in the stream, or
    all of them if fewer remain; with no declared length, or with zero, no
    byte is read. *)
Theorem deserialize_reads_declared_length
    (stream : BytesIO.t) (content_type : string) (content_length : option Z) :
  exists data,
    JSONHandler.deserialize loads stream content_type content_length
    = (JSONHandler.try_loads loads data,
       BytesIO.Build (BytesIO.buffer stream)
         (BytesIO.pos stream + List.length data))
    /\ (forall n, content_length = Some n -> (0 < n)%Z ->
          data = firstn (Z.to_nat n) (BytesIO.remaining stream))
    /\ (content_length = None \/ content_length = Some 0%Z -> data = []).
Proof.
  unfold JSONHandler.deserialize, BytesIO.read.
  eexists. split; [reflexivity|]. split.
  - intros n -> Hn. simpl. destruct (Z.ltb_spec n 0); [lia | reflexivity].
  - intros [-> | ->]; reflexivity.
Qed.

End Deserialize.

Section DeserializeExamples.

(** [b'{}'] with a declared length of two is read and parsed; with no
    declared length nothing is read. *)
Lemma deserialize_reads_declared_length_witness :
  JSONHandler.deserialize sample_loads empty_object_stream "application/json"
    (Some 2%Z)
  = (Ok (VDict []), BytesIO.Build [x7b; x7d] 2)
  /\ fst (BytesIO.read empty_object_stream (JSONHandler.length_or_0 None)) = [].
Proof.
  destruct (deserialize_reads_declared_length sample_loads empty_object_stream
              "application/json" (Some 2%Z)) as (data & Hrun & Hpos & _).
  rewrite Hrun, (Hpos 2%Z eq_refl eq_refl). split; reflexivity.
Defined.

(** C3 as stated fails when no length is declared: the stream holds the two
    bytes of [{}], which parse, but [deserialize] reads none of them, leaves
    the stream where it was and reports a bad request. *)
Lemma deserialize_reads_declared_length_counterexample :
  BytesIO.remaining empty_object_stream = [x7b; x7d]
  /\ sample_loads (BytesIO.remaining empty_object_stream) = Ok (VDict [])
  /\ fst (BytesIO.read empty_object_stream (JSONHandler.length_or_0 None)) = []
  /\ JSONHandler.deserialize sample_loads empty_object_stream "application/json"
       None
     = (Raise (HTTPBadRequest "Invalid JSON"
                 "Could not parse JSON body - Expecting value"),
        empty_object_stream)
  /\ fst (BytesIO.read empty_object_stream (JSONHandler.length_or_0 None))
     <> BytesIO.remaining empty_object_stream.
Proof.
  repeat split. discriminate.
Qed.

End DeserializeExamples.

(* ================================================================== *)
(** ** MediaHandlers: construction *)

Section Construction.

Lemma In_keys_update (V : Type) (d : PyDict.t V) (pairs : list (string * V)) k :
  In k (PyDict.keys (PyDict.update d pairs)) <->
  In k (PyDict.keys d) \/ In k (map fst pairs).
Proof.
  rewrite keys_update, in_app_iff, filter_In, first_occurrences_In.
  rewrite negb_true_iff, mem_false.
  destruct (in_dec string_dec k (PyDict.keys d)); tauto.
Qed.

Lemma In_keys_of_items (V : Type) (pairs : list (string * V)) k :
  In k (PyDict.keys (PyDict.of_items pairs)) <-> In k (map fst pairs).
Proof. now rewrite keys_of_items, first_occurrences_In. Qed.

(** An update never moves or rewrites an entry whose key it does not
    mention. *)
Lemma get_update_kept (V : Type) (d : PyDict.t V) (pairs : list (string * V)) k :
  ~ In k (map fst pairs) ->
  PyDict.get (PyDict.update d pairs) k = PyDict.get d k.
Proof.
  intros H. rewrite get_update.
  assert (Hn : PyDict.get (rev pairs) k = None).
  { apply get_None. unfold PyDict.keys. now rewrite map_rev, <- in_rev. }
  now rewrite Hn.
Qed.

Lemma extra_pairs_In given registered k :
  In k (map fst (MediaHandlers.extra_pairs given registered)) <->
  exists handler,
    In handler (PyDict.values given)
    /\ In k (BaseMediaHandler.allowed_media_types handler)
    /\ PyDict.contains registered k = false.
Proof.
  unfold MediaHandlers.extra_pairs. rewrite in_map_iff. split.
  - intros ([k' h] & Hk & Hin). simpl in Hk. subst k'.
    apply in_flat_map in Hin. destruct Hin as (handler & Hh & Hin).
    apply in_map_iff in Hin. destruct Hin as (m & Heq & Hm).
    injection Heq as -> <-. apply filter_In in Hm.
    exists handler. rewrite negb_true_iff in Hm. tauto.
  - intros (handler & Hh & Hk & Hc). exists (k, handler). split; [reflexivity|].
    apply in_flat_map. exists handler. split; [exact Hh|].
    apply in_map_iff. exists k. split; [reflexivity|].
    apply filter_In. now rewrite Hc.
Qed.

(** The keys of the registry: those that were given (or the built-in ones)
    and the allowed media types of every given codec. *)
Lemma resolved_handlers_keys handlers k :
  In k (PyDict.keys (MediaHandlers.resolved_handlers handlers)) <->
  In k (PyDict.keys (MediaHandlers.handlers_or_builtin handlers))
  \/ exists given handler,
       handlers = Some given
       /\ In handler (PyDict.values given)
       /\ In k (BaseMediaHandler.allowed_media_types handler).
Proof.
  unfold MediaHandlers.resolved_handlers. destruct handlers as [given|].
  - unfold PyDict.items. rewrite In_keys_update.
    fold (PyDict.keys (PyDict.of_items
            (MediaHandlers.extra_pairs given
               (MediaHandlers.handlers_or_builtin (Some given))))).
    rewrite In_keys_of_items, extra_pairs_In. split.
    + intros [H | (handler & Hh & Hk & _)]; [now left|].
      right. exists given, handler. auto.
    + intros [H | (given' & handler & Heq & Hh & Hk)]; [now left|].
      injection Heq as <-.
      destruct (PyDict.contains (MediaHandlers.handlers_or_builtin (Some given)) k)
        eqn:Hc.
      * left. now apply contains_In.
      * right. exists handler. auto.
  - split; [now left|]. intros [H | (given & handler & Heq & _)];
      [exact H | discriminate].
Qed.

(** A type that is registered keeps its codec. *)
Lemma resolved_handlers_kept handlers k handler :
  PyDict.get (MediaHandlers.handlers_or_builtin handlers) k = Some handler ->
  PyDict.get (MediaHandlers.resolved_handlers handlers) k = Some handler.
Proof.
  unfold MediaHandlers.resolved_handlers. destruct handlers as [given|]; [|trivial].
  intros H. rewrite get_update_kept; [exact H|].
  unfold PyDict.items.
  fold (PyDict.keys (PyDict.of_items
          (MediaHandlers.extra_pairs given
             (MediaHandlers.handlers_or_builtin (Some given))))).
  rewrite In_keys_of_items, extra_pairs_In.
  intros (h & _ & _ & Hc). unfold PyDict.contains in Hc. now rewrite H in Hc.
Qed.

(** C8.  The constructor compares the default media type with the keys of
    the registry after the given codecs have added their allowed media
    types: it raises [ValueError] when the default is not one of them, and
    otherwise returns the registry with these handlers and this default. *)
Theorem init_requires_default_handler
    (default_media_type : string)
    (handlers : option (PyDict.t BaseMediaHandler.t)) :
  let registered := MediaHandlers.resolved_handlers handlers in
  (forall k,
      In k (PyDict.keys registered) <->
      In k (PyDict.keys (MediaHandlers.handlers_or_builtin handlers))
      \/ exists given handler,
           handlers = Some given
           /\ In handler (PyDict.values given)
           /\ In k (BaseMediaHandler.allowed_media_types handler))
  /\ (~ In default_media_type (PyDict.keys registered) ->
      MediaHandlers.__init__ default_media_type handlers
      = Raise (ValueError (String.append "no handler for default media type "
                             (quoted default_media_type))))
  /\ (In default_media_type (PyDict.keys registered) ->
      exists self,
        MediaHandlers.__init__ default_media_type handlers = Ok self
        /\ MediaHandlers.handlers self = registered
        /\ MediaHandlers.media_type self = default_media_type).
Proof.
  intros registered. split; [apply resolved_handlers_keys|].
  unfold MediaHandlers.__init__. fold registered. split; intros H.
  - rewrite <- contains_In in H.
    destruct (PyDict.contains registered default_media_type); [tauto | reflexivity].
  - apply contains_In in H. rewrite H. simpl. eexists. repeat split.
Qed.

End Construction.

Section ConstructionExamples.

Example default_registry_init :
  MediaHandlers.__init__ "application/json" None = Ok default_registry.
Proof. reflexivity. Qed.

(** [test_media_handlers_unknown_default_media_type] fails to construct;
    the first registry of [test_custom_extra_media_handlers] is constructed
    with the alias of its codec as a second key. *)
Lemma init_requires_default_handler_witness :
  MediaHandlers.__init__ "nope/json" (Some json_only)
  = Raise (ValueError "no handler for default media type 'nope/json'")
  /\ exists self,
       MediaHandlers.__init__ "application/json; charset=UTF-8"
         (Some json_with_alias) = Ok self
       /\ PyDict.keys (MediaHandlers.handlers self)
          = ["application/json"; "application/json; charset=UTF-8"].
Proof.
  split.
  - apply (proj1 (proj2 (init_requires_default_handler "nope/json"
                           (Some json_only)))).
    simpl. intuition discriminate.
  - destruct (proj2 (proj2 (init_requires_default_handler
                              "application/json; charset=UTF-8"
                              (Some json_with_alias))))
      as (self & Hinit & Hhandlers & _).
    + simpl. auto.
    + exists self. split; [exact Hinit|]. rewrite Hhandlers. reflexivity.
Defined.

End ConstructionExamples.

(* ================================================================== *)
(** ** Facts about strings *)

Lemma append_assoc (s1 s2 s3 : string) :
  String.append (String.append s1 s2) s3 = String.append s1 (String.append s2 s3).
Proof. induction s1 as [|c s1 IH]; simpl; [reflexivity | now rewrite IH]. Qed.

Lemma append_empty_r (s : string) : String.append s EmptyString = s.
Proof. induction s as [|c s IH]; simpl; [reflexivity | now rewrite IH]. Qed.

Lemma is_empty_false (s : string) : s <> EmptyString -> is_empty s = false.
Proof. destruct s; [congruence | reflexivity]. Qed.

Lemma occurs_in_refl (s : string) : occurs_in s s.
Proof. exists EmptyString, EmptyString. simpl. now rewrite append_empty_r. Qed.

Lemma occurs_in_prefix (needle s rest : string) :
  occurs_in needle s -> occurs_in needle (String.append s rest).
Proof.
  intros (before & after & ->). exists before, (String.append after rest).
  now rewrite !append_assoc.
Qed.

Lemma occurs_in_suffix (needle first s : string) :
  occurs_in needle s -> occurs_in needle (String.append first s).
Proof.
  intros (before & after & ->). exists (String.append first before), after.
  now rewrite !append_assoc.
Qed.

Lemma occurs_in_join (sep : string) (parts : list string) (part : string) :
  In part parts -> occurs_in part (join sep parts).
Proof.
  induction parts as [|p parts IH]; [intros []|].
  intros [-> | Hin].
  - destruct parts; [apply occurs_in_refl|].
    apply occurs_in_prefix, occurs_in_refl.
  - destruct parts as [|p' parts]; [destruct Hin|].
    change (join sep (p :: p' :: parts))
      with (String.append p (String.append sep (join sep (p' :: parts)))).
    now apply occurs_in_suffix, occurs_in_suffix, IH.
Qed.

(** The description names the rejected type and every allowed type, each
    between quotes. *)
Lemma unsupported_description_names (media_type : string) (allowed : list string) :
  occurs_in (quoted media_type)
    (BaseMediaHandler.unsupported_description media_type allowed)
  /\ forall a, In a allowed ->
       occurs_in (quoted a)
         (BaseMediaHandler.unsupported_description media_type allowed).
Proof.
  unfold BaseMediaHandler.unsupported_description. split.
  - apply occurs_in_prefix, occurs_in_refl.
  - intros a Hin. apply occurs_in_suffix, occurs_in_suffix, occurs_in_join.
    now apply in_map.
Qed.

(* ================================================================== *)
(** ** MediaHandlers: lookup_handler *)

Section LookupHandler.

Variable best_match : list string -> string -> option string.

Implicit Types (self : MediaHandlers.t) (media_type : string).

Lemma effective_media_type_given self media_type default_media_type :
  media_type <> EmptyString -> media_type <> "*/*" ->
  MediaHandlers.effective_media_type self (Some media_type) default_media_type
  = media_type.
Proof.
  intros Hne Hw. unfold MediaHandlers.effective_media_type.
  apply String.eqb_neq in Hw. now rewrite Hw, (is_empty_false Hne).
Qed.

Lemma effective_media_type_unspecified self (requested : option string)
    default_media_type :
  requested = None \/ requested = Some EmptyString \/ requested = Some "*/*" ->
  MediaHandlers.effective_media_type self requested default_media_type
  = MediaHandlers.fallback self default_media_type.
Proof. intros [-> | [-> | ->]]; reflexivity. Qed.

(** An exact match is returned and nothing is written. *)
Lemma lookup_handler_exact self requested default_media_type handler :
  PyDict.get (MediaHandlers.handlers self)
    (MediaHandlers.effective_media_type self requested default_media_type)
  = Some handler ->
  MediaHandlers.lookup_handler best_match self requested default_media_type
  = (Ok handler, self).
Proof. intros H. unfold MediaHandlers.lookup_handler. now rewrite H. Qed.

(** Without an exact match the call is unsupported as soon as the [try]
    block raises one of the three exceptions of its [except] clause. *)
Lemma lookup_handler_caught self requested default_media_type e :
  let media_type :=
    MediaHandlers.effective_media_type self requested default_media_type in
  PyDict.get (MediaHandlers.handlers self) media_type = None ->
  MediaHandlers.resolve best_match self media_type = Raise e ->
  MediaHandlers.caught e = true ->
  MediaHandlers.lookup_handler best_match self requested default_media_type
  = (Raise (HTTPUnsupportedMediaType
              (BaseMediaHandler.unsupported_description media_type
                 (MediaHandlers.allowed_media_types self))), self).
Proof.
  intros media_type Hget Hres Hc. unfold MediaHandlers.lookup_handler.
  fold media_type. now rewrite Hget, Hres, Hc.
Qed.

(** What the [try] block does: it raises, unless [best_match] returns the
    empty string and the empty string is a registered key. *)
Lemma resolve_cases self media_type :
  (exists e, MediaHandlers.resolve best_match self media_type = Raise e
             /\ MediaHandlers.caught e = true)
  \/ (exists handler,
        best_match (PyDict.keys (MediaHandlers.handlers self)) media_type
        = Some EmptyString
        /\ PyDict.get (MediaHandlers.handlers self) EmptyString = Some handler
        /\ MediaHandlers.resolve best_match self media_type = Ok handler).
Proof.
  unfold MediaHandlers.resolve, PyDict.getitem.
  destruct (best_match _ media_type) as [[|c r]|]; simpl.
  - destruct (PyDict.get (MediaHandlers.handlers self) EmptyString) as [h|].
    + right. exists h. auto.
    + left. eexists. split; reflexivity.
  - left. eexists. split; reflexivity.
  - left. eexists. split; reflexivity.
Qed.

(** C6.  For an empty, absent or wildcard media type the type looked up is
    the [default_media_type] argument when that is a non-empty string and
    the registry's own default otherwise, and the codec registered under it
    is returned, the registry unchanged. *)
Theorem lookup_handler_falls_back_to_default
    self (requested default_media_type : option string)
    (handler : BaseMediaHandler.t) :
  requested = None \/ requested = Some EmptyString \/ requested = Some "*/*" ->
  PyDict.get (MediaHandlers.handlers self)
    (MediaHandlers.fallback self default_media_type) = Some handler ->
  (forall given, default_media_type = Some given -> given <> EmptyString ->
     MediaHandlers.fallback self default_media_type = given)
  /\ (default_media_type = None \/ default_media_type = Some EmptyString ->
      MediaHandlers.fallback self default_media_type
      = MediaHandlers.default_media_type self)
  /\ MediaHandlers.lookup_handler best_match self requested default_media_type
     = (Ok handler, self).
Proof.
  intros Hreq Hget. repeat split.
  - intros given -> Hne. unfold MediaHandlers.fallback, str_or.
    now rewrite (is_empty_false Hne).
  - intros [-> | ->]; reflexivity.
  - apply lookup_handler_exact.
    now rewrite (effective_media_type_unspecified self default_media_type Hreq).
Qed.

(** C7.  A media type that is not empty and not the wildcard, that is not a
    key of the registry, and for which [best_match] returns no registered
    key, is rejected with [HTTPUnsupportedMediaType].  The description names
    the rejected type and every allowed media type of the registry, and the
    registry is unchanged. *)
Theorem lookup_handler_unsupported
    self media_type (default_media_type : option string) :
  media_type <> EmptyString -> media_type <> "*/*" ->
  PyDict.get (MediaHandlers.handlers self) media_type = None ->
  ~ (exists resolved handler,
       best_match (PyDict.keys (MediaHandlers.handlers self)) media_type
       = Some resolved
       /\ PyDict.get (MediaHandlers.handlers self) resolved = Some handler) ->
  exists description,
    MediaHandlers.lookup_handler best_match self (Some media_type)
      default_media_type
    = (Raise (HTTPUnsupportedMediaType description), self)
    /\ description
       = BaseMediaHandler.unsupported_description media_type
           (MediaHandlers.allowed_media_types self)
    /\ occurs_in (quoted media_type) description
    /\ forall allowed, In allowed (MediaHandlers.allowed_media_types self) ->
         occurs_in (quoted allowed) description.
Proof.
  intros Hne Hw Hget Hnone.
  pose proof (effective_media_type_given self default_media_type Hne Hw) as Heff.
  eexists. split; [|split; [reflexivity | apply unsupported_description_names]].
  destruct (resolve_cases self media_type)
    as [(e & Hres & Hc) | (handler & Hbm & Hh & _)].
  - rewrite <- Heff at 2.
    apply lookup_handler_caught with (e := e); rewrite ?Heff; assumption.
  - exfalso. apply Hnone. exists EmptyString, handler. auto.
Qed.

(** C2.  When the requested type has no exact match and [best_match] finds
    a registered type for it, the assertion on the result fails: the call
    raises [HTTPUnsupportedMediaType], returns no codec and caches
    nothing. *)
Theorem lookup_handler_rejects_pattern_match
    self media_type (default_media_type : option string)
    (resolved : string) (handler : BaseMediaHandler.t) :
  media_type <> EmptyString -> media_type <> "*/*" ->
  PyDict.get (MediaHandlers.handlers self) media_type = None ->
  best_match (PyDict.keys (MediaHandlers.handlers self)) media_type
  = Some resolved ->
  resolved <> EmptyString ->
  PyDict.get (MediaHandlers.handlers self) resolved = Some handler ->
  MediaHandlers.lookup_handler best_match self (Some media_type)
    default_media_type
  = (Raise (HTTPUnsupportedMediaType
              (BaseMediaHandler.unsupported_description media_type
                 (MediaHandlers.allowed_media_types self))), self).
Proof.
  intros Hne Hw Hget Hbm Hres Hh.
  pose proof (effective_media_type_given self default_media_type Hne Hw) as Heff.
  rewrite <- Heff at 2.
  apply lookup_handler_caught with (e := AssertionError);
    rewrite ?Heff; [assumption | | reflexivity].
  unfold MediaHandlers.resolve. rewrite Hbm. simpl.
  now rewrite (is_empty_false Hres).
Qed.

(** C10.  In a registry that does not have the empty string as a key, a
    call returns a codec that the handlers hold or raises
    [HTTPUnsupportedMediaType], and the registry after the call is the
    registry before it. *)
Theorem lookup_handler_leaves_handlers
    self (requested default_media_type : option string) :
  ~ In EmptyString (PyDict.keys (MediaHandlers.handlers self)) ->
  exists result,
    MediaHandlers.lookup_handler best_match self requested default_media_type
    = (result, self)
    /\ ((exists handler,
           result = Ok handler
           /\ In handler (PyDict.values (MediaHandlers.handlers self)))
        \/ exists description,
             result = Raise (HTTPUnsupportedMediaType description)).
Proof.
  intros Hempty.
  destruct (PyDict.get (MediaHandlers.handlers self)
              (MediaHandlers.effective_media_type self requested
                 default_media_type)) as [handler|] eqn:Hget.
  - exists (Ok handler). split; [now apply lookup_handler_exact|].
    left. exists handler. split; [reflexivity|].
    apply get_Some_In in Hget.
    apply (in_map snd _ _ Hget).
  - destruct (resolve_cases self
                (MediaHandlers.effective_media_type self requested
                   default_media_type))
      as [(e & Hres & Hc) | (handler & _ & Hh & _)].
    + eexists. split; [now apply lookup_handler_caught with (e := e)|].
      right. eexists. reflexivity.
    + exfalso. apply Hempty.
      apply get_Some_In in Hh. apply (in_map fst _ _ Hh).
Qed.

End LookupHandler.

Section LookupHandlerExamples.

(** The allowed media types of a constructed registry are its default and
    the keys it was constructed with. *)
Lemma init_allowed_media_types default_media_type handlers self :
  MediaHandlers.__init__ default_media_type handlers = Ok self ->
  forall k,
    In k (MediaHandlers.allowed_media_types self) <->
    k = default_media_type \/ In k (PyDict.keys (MediaHandlers.handlers self)).
Proof.
  unfold MediaHandlers.__init__.
  destruct (negb _); [discriminate|]. intros [= <-] k.
  cbn [MediaHandlers.allowed_media_types MediaHandlers.handlers].
  unfold BaseMediaHandler.init_allowed, py_set.
  rewrite first_occurrences_In. simpl. intuition.
Qed.

(** [test_media_handlers_lookup_by_default_media_type] *)
Lemma lookup_handler_falls_back_to_default_witness :
  MediaHandlers.lookup_handler sample_best_match default_registry
    (Some "*/*") (Some "application/json; charset=UTF-8")
  = (Ok (JSONHandler.__init__ 1 []), default_registry)
  /\ MediaHandlers.lookup_handler sample_best_match default_registry
       None None
     = (Ok (JSONHandler.__init__ 0 []), default_registry).
Proof.
  split.
  - apply (lookup_handler_falls_back_to_default sample_best_match
             default_registry (requested := Some "*/*")
             (Some "application/json; charset=UTF-8")); [auto | reflexivity].
  - apply (lookup_handler_falls_back_to_default sample_best_match
             default_registry (requested := None) None); [auto | reflexivity].
Defined.

(** [test_media_handlers_lookup_unknown_media_type] *)
Lemma lookup_handler_unsupported_witness :
  MediaHandlers.lookup_handler sample_best_match default_registry
    (Some "nope/json") None
  = (Raise (HTTPUnsupportedMediaType
              "'nope/json' is an unsupported media type, supported media types: 'application/json', 'application/json; charset=UTF-8'"),
     default_registry).
Proof.
  destruct (lookup_handler_unsupported sample_best_match default_registry
              (media_type := "nope/json") None)
    as (description & Hrun & -> & _).
  - discriminate.
  - discriminate.
  - reflexivity.
  - intros (resolved & handler & Hbm & Hget).
    injection Hbm as <-. discriminate Hget.
  - exact Hrun.
Defined.

(** The built-in registry and the type ["application/json; charset=utf-8"]:
    no key is spelled that way, the matcher resolves it to a registered key,
    and the call is rejected. *)
Lemma lookup_handler_rejects_pattern_match_witness :
  PyDict.get (MediaHandlers.handlers default_registry)
    "application/json; charset=utf-8" = None
  /\ sample_best_match (PyDict.keys (MediaHandlers.handlers default_registry))
       "application/json; charset=utf-8"
     = Some "application/json; charset=UTF-8"
  /\ MediaHandlers.lookup_handler sample_best_match default_registry
       (Some "application/json; charset=utf-8") None
     = (Raise (HTTPUnsupportedMediaType
                 "'application/json; charset=utf-8' is an unsupported media type, supported media types: 'application/json', 'application/json; charset=UTF-8'"),
        default_registry).
Proof.
  split; [reflexivity|]. split; [reflexivity|].
  apply (lookup_handler_rejects_pattern_match sample_best_match default_registry
           (media_type := "application/json; charset=utf-8") None
           (resolved := "application/json; charset=UTF-8")
           (handler := JSONHandler.__init__ 1 []));
    try discriminate; reflexivity.
Defined.

Lemma lookup_handler_leaves_handlers_witness :
  ~ In EmptyString (PyDict.keys (MediaHandlers.handlers default_registry))
  /\ exists result,
       MediaHandlers.lookup_handler sample_best_match default_registry
         (Some "application/json; charset=utf-8") None
       = (result, default_registry).
Proof.
  assert (H : ~ In EmptyString
                (PyDict.keys (MediaHandlers.handlers default_registry)))
    by (simpl; intuition discriminate).
  split; [exact H|].
  destruct (lookup_handler_leaves_handlers sample_best_match default_registry
              (Some "application/json; charset=utf-8") None H)
    as (result & Hrun & _).
  exists result. exact Hrun.
Defined.

End LookupHandlerExamples.

(* ================================================================== *)
(** ** More about dictionaries *)

Section MorePyDictFacts.
Variable V : Type.

Lemma set_fresh (d : PyDict.t V) k (v : V) :
  ~ In k (PyDict.keys d) -> PyDict.set d k v = d ++ [(k, v)].
Proof.
  induction d as [|[k0 v0] d IH]; simpl; intros H; [reflexivity|].
  destruct (String.eqb k0 k) eqn:H0.
  - apply String.eqb_eq in H0. tauto.
  - rewrite IH; tauto.
Qed.

Lemma update_fresh (pairs : list (string * V)) :
  NoDup (map fst pairs) ->
  forall d : PyDict.t V,
    (forall k, In k (map fst pairs) -> ~ In k (PyDict.keys d)) ->
    PyDict.update d pairs = d ++ pairs.
Proof.
  unfold PyDict.update.
  induction pairs as [|[k v] pairs IH]; simpl; intros Hnd d Hfresh.
  - now rewrite app_nil_r.
  - inversion Hnd as [|? ? Hnin Hnd']; subst.
    rewrite set_fresh by auto. rewrite IH; [now rewrite <- app_assoc| exact Hnd' |].
    intros k' Hin. unfold PyDict.keys. rewrite map_app, in_app_iff. simpl.
    intros [H | [H | []]]; [apply (Hfresh k'); auto | congruence].
Qed.

(** Building a dictionary from pairs with distinct keys keeps the pairs as
    they are. *)
Lemma of_items_distinct (pairs : list (string * V)) :
  NoDup (map fst pairs) -> PyDict.of_items pairs = pairs.
Proof.
  intros Hnd. unfold PyDict.of_items. rewrite update_fresh; auto.
Qed.

End MorePyDictFacts.

(* ================================================================== *)
(** ** More about to_representation *)

Section ToRepresentationEntries.

Lemma comprehension_Forall2 (A B : Type) (f : A -> Result B) items results :
  comprehension f items = Ok results <->
  Forall2 (fun item result => f item = Ok result) items results.
Proof.
  revert results. induction items as [|item items IH]; intros results; simpl.
  - split.
    + intros [= <-]. constructor.
    + intros H. inversion H. reflexivity.
  - split.
    + destruct (f item) as [y|e] eqn:Hf; simpl; [|discriminate].
      destruct (comprehension f items) as [ys|e] eqn:Hc; simpl; [|discriminate].
      intros [= <-]. constructor; [exact Hf | now apply IH].
    + intros H. inversion H as [|? y ? ys Hf Hrest]; subst.
      rewrite Hf. simpl. apply IH in Hrest. now rewrite Hrest.
Qed.

(** What a successful run of the loop has done, field by field. *)
Lemma to_representation_loop_Ok fields obj acc representation :
  BaseSerializer.to_representation_loop fields obj acc = Ok representation ->
  exists ext : string * BaseField.t -> Value,
    (forall nf, In nf fields ->
       BaseSerializer.represent (snd nf)
         (BaseSerializer.get_attribute obj (key nf)) = Ok (ext nf))
    /\ representation
       = PyDict.update acc (map (fun nf => (fst nf, ext nf)) fields).
Proof.
  intros H.
  exists (fun nf => match BaseSerializer.represent (snd nf)
                            (BaseSerializer.get_attribute obj (key nf)) with
                    | Ok v => v
                    | Raise _ => VNone
                    end).
  revert acc H. induction fields as [|[n f] fields IH]; simpl; intros acc H.
  - injection H as <-. split; [intros nf []| reflexivity].
  - unfold key at 1. simpl.
    destruct (BaseSerializer.represent f _) as [v|e] eqn:Hr; simpl in H;
      [|discriminate].
    destruct (IH _ H) as (Hall & ->). split; [|reflexivity].
    intros nf [<- | Hin]; [|now apply Hall].
    unfold key. simpl. now rewrite Hr.
Qed.

Lemma to_representation_Ok (self : BaseSerializer.t) obj representation :
  NoDup (PyDict.keys self) ->
  BaseSerializer.to_representation self obj = Ok representation ->
  PyDict.keys representation = PyDict.keys self
  /\ forall name field, In (name, field) self ->
       exists v,
         BaseSerializer.represent field
           (BaseSerializer.get_attribute obj
              (BaseSerializer.source_or_name field name)) = Ok v
         /\ PyDict.get representation name = Some v.
Proof.
  intros Hnd H. apply to_representation_loop_Ok in H.
  destruct H as (ext & Hall & ->).
  assert (Hkeys : map fst (map (fun nf : string * BaseField.t => (fst nf, ext nf)) self)
                  = PyDict.keys self)
    by (rewrite map_map; reflexivity).
  assert (Hnd' : NoDup (map fst (map (fun nf : string * BaseField.t =>
                                        (fst nf, ext nf)) self)))
    by (now rewrite Hkeys).
  pose proof (of_items_distinct _ Hnd') as Hsame.
  unfold PyDict.of_items in Hsame. unfold PyDict.items in *. rewrite Hsame.
  split; [exact Hkeys|].
  intros name field Hin. exists (ext (name, field)). split.
  - exact (Hall (name, field) Hin).
  - apply In_get.
    + unfold PyDict.keys. now rewrite Hkeys.
    + apply (in_map (fun nf => (fst nf, ext nf)) self (name, field) Hin).
Qed.

(** X1.  A representation has exactly the field names of the serializer as
    keys, in declaration order: what the object holds beyond them is
    dropped, and no field is left out. *)
Theorem to_representation_field_names
    (self : BaseSerializer.t) (obj : Value) (representation : PyDict.t Value) :
  NoDup (PyDict.keys self) ->
  BaseSerializer.to_representation self obj = Ok representation ->
  PyDict.keys representation = PyDict.keys self.
Proof. intros Hnd H. exact (proj1 (to_representation_Ok self obj Hnd H)). Qed.

(** X2.  An attribute that the object does not have, or has as [None],
    gives [None] in the representation, and the empty list for a [many]
    field, whatever the field's own conversion would do. *)
Theorem to_representation_missing_attribute
    (self : BaseSerializer.t) (obj : Value) (representation : PyDict.t Value)
    (name : string) (field : BaseField.t) :
  NoDup (PyDict.keys self) ->
  BaseSerializer.to_representation self obj = Ok representation ->
  In (name, field) self ->
  BaseSerializer.get_attribute obj (BaseSerializer.source_or_name field name)
  = VNone ->
  PyDict.get representation name
  = Some (if BaseField.many field then VList [] else VNone).
Proof.
  intros Hnd H Hin Hattr.
  destruct (proj2 (to_representation_Ok self obj Hnd H) name field Hin)
    as (v & Hr & Hget).
  rewrite Hattr in Hr. simpl in Hr. congruence.
Qed.

(** X3.  A [many] field whose attribute is a list is converted element by
    element: the entry is a list of the same length that holds, in order,
    the field's representation of each element. *)
Theorem to_representation_many_elementwise
    (self : BaseSerializer.t) (obj : Value) (representation : PyDict.t Value)
    (name : string) (field : BaseField.t) (items : list Value) :
  NoDup (PyDict.keys self) ->
  BaseSerializer.to_representation self obj = Ok representation ->
  In (name, field) self ->
  BaseField.many field = true ->
  BaseSerializer.get_attribute obj (BaseSerializer.source_or_name field name)
  = VList items ->
  exists externals,
    PyDict.get representation name = Some (VList externals)
    /\ Forall2 (fun item external =>
                  BaseField.to_representation field item = Ok external)
         items externals.
Proof.
  intros Hnd H Hin Hmany Hattr.
  destruct (proj2 (to_representation_Ok self obj Hnd H) name field Hin)
    as (v & Hr & Hget).
  rewrite Hattr in Hr. unfold BaseSerializer.represent in Hr.
  rewrite Hmany in Hr. simpl in Hr.
  destruct (comprehension (BaseField.to_representation field) items)
    as [externals|e] eqn:Hc; simpl in Hr; [|discriminate].
  injection Hr as <-. exists externals. split; [exact Hget|].
  now apply comprehension_Forall2.
Qed.

(** X4.  A field that is not [many] and has the wildcard source is given the
    whole object, and the entry of the representation is what the field
    makes of it. *)
Theorem to_representation_wildcard_source
    (self : BaseSerializer.t) (obj : Value) (representation : PyDict.t Value)
    (name : string) (field : BaseField.t) :
  NoDup (PyDict.keys self) ->
  BaseSerializer.to_representation self obj = Ok representation ->
  In (name, field) self ->
  BaseField.source field = Some "*" ->
  BaseField.many field = false ->
  obj <> VNone ->
  exists external,
    BaseField.to_representation field obj = Ok external
    /\ PyDict.get representation name = Some external.
Proof.
  intros Hnd H Hin Hsrc Hmany Hobj.
  destruct (proj2 (to_representation_Ok self obj Hnd H) name field Hin)
    as (v & Hr & Hget).
  unfold BaseSerializer.source_or_name in Hr. rewrite Hsrc in Hr.
  simpl in Hr. unfold BaseSerializer.represent in Hr. rewrite Hmany in Hr.
  change (BaseSerializer.get_attribute obj "*") with obj in Hr.
  exists v. split; [|exact Hget]. destruct obj; congruence.
Qed.

(** X5.  [to_representation] raises exactly when the conversion of some
    field raises, and the exception is that of the first such field in
    declaration order. *)
Theorem to_representation_first_error
    (self : BaseSerializer.t) (obj : Value) (e : Exn) :
  BaseSerializer.to_representation self obj = Raise e <->
  exists before name field after,
    self = before ++ (name, field) :: after
    /\ (forall nf, In nf before ->
          exists v, BaseSerializer.represent (snd nf)
                      (BaseSerializer.get_attribute obj (key nf)) = Ok v)
    /\ BaseSerializer.represent field
         (BaseSerializer.get_attribute obj
            (BaseSerializer.source_or_name field name)) = Raise e.
Proof.
  unfold BaseSerializer.to_representation, PyDict.items.
  generalize (@PyDict.empty Value) as acc.
  induction self as [|[n f] fields IH]; intros acc; simpl.
  - split; [discriminate|].
    intros (before & name & field & after & Heq & _).
    destruct before; discriminate.
  - destruct (BaseSerializer.represent f _) as [v|e'] eqn:Hr; simpl.
    + rewrite IH. split.
      * intros (before & name & field & after & -> & Hbefore & Hfail).
        exists ((n, f) :: before), name, field, after.
        split; [reflexivity|]. split; [|exact Hfail].
        intros nf [<- | Hin]; [exists v; exact Hr | now apply Hbefore].
      * intros (before & name & field & after & Heq & Hbefore & Hfail).
        destruct before as [|nf before].
        -- injection Heq as <- <- <-. congruence.
        -- injection Heq as <- ->. exists before, name, field, after.
           split; [reflexivity|]. split; [|exact Hfail].
           intros nf Hin. apply Hbefore. now right.
    + split.
      * intros [= <-]. exists [], n, f, fields.
        split; [reflexivity|]. split; [intros nf []| exact Hr].
      * intros (before & name & field & after & Heq & Hbefore & Hfail).
        destruct before as [|nf before].
        -- injection Heq as <- <- <-. congruence.
        -- injection Heq as <- _.
           destruct (Hbefore (n, f) (or_introl eq_refl)) as (v & Hv).
           unfold key in Hv. simpl in Hv. congruence.
Qed.

End ToRepresentationEntries.

(* ================================================================== *)
(** ** More about from_representation *)

Section FromRepresentationMore.

Implicit Types (fields : list (string * BaseField.t))
               (representation acc : PyDict.t Value).

Lemma from_representation_loop_partial fields representation acc :
  BaseSerializer.from_representation_loop fields representation true acc
  = BaseSerializer.from_representation_loop
      (filter (fun nf => PyDict.contains representation (fst nf)) fields)
      representation false acc.
Proof.
  revert acc. induction fields as [|[n f] fields IH]; intros acc; simpl.
  - reflexivity.
  - destruct (PyDict.contains representation n) eqn:Hc; simpl; [|apply IH].
    rewrite ?Hc. simpl.
    destruct (PyDict.getitem representation n) as [external|e]; simpl;
      [|reflexivity].
    destruct (BaseField.from_representation f external) as [internal|e]; simpl;
      [|reflexivity].
    destruct (BaseField.validate f internal) as [value|e]; simpl;
      [apply IH | reflexivity].
Qed.

(** X6.  A partial deserialization is the full deserialization by the
    serializer cut down to the fields whose names the representation
    supplies: absent fields are skipped, the others are treated as ever. *)
Theorem from_representation_partial
    (self : BaseSerializer.t) (representation : PyDict.t Value) :
  BaseSerializer.from_representation self representation true
  = BaseSerializer.from_representation
      (filter (fun nf => PyDict.contains representation (fst nf)) self)
      representation false.
Proof. apply from_representation_loop_partial. Qed.

Lemma from_representation_loop_ext fields rep1 rep2 partial acc :
  (forall name, In name (map fst fields) ->
     PyDict.get rep1 name = PyDict.get rep2 name) ->
  BaseSerializer.from_representation_loop fields rep1 partial acc
  = BaseSerializer.from_representation_loop fields rep2 partial acc.
Proof.
  revert acc. induction fields as [|[n f] fields IH]; intros acc H; simpl.
  - reflexivity.
  - unfold PyDict.contains, PyDict.getitem.
    rewrite (H n (or_introl eq_refl)).
    assert (Hrest : forall acc',
              BaseSerializer.from_representation_loop fields rep1 partial acc'
              = BaseSerializer.from_representation_loop fields rep2 partial acc').
    { intros acc'. apply IH. intros name Hin. apply H. now right. }
    destruct (negb partial || _); [|apply Hrest].
    destruct (PyDict.get rep2 n) as [external|]; simpl; [|reflexivity].
    destruct (BaseField.from_representation f external) as [internal|e]; simpl;
      [|reflexivity].
    destruct (BaseField.validate f internal) as [value|e]; simpl;
      [apply Hrest | reflexivity].
Qed.

(** X7.  Only the entries under field names are read: two representations
    that agree on the field names of the serializer are deserialized alike,
    so a key that no field has is ignored and never an error. *)
Theorem from_representation_ignores_unknown_keys
    (self : BaseSerializer.t) (rep1 rep2 : PyDict.t Value) (partial : bool) :
  (forall name, In name (PyDict.keys self) ->
     PyDict.get rep1 name = PyDict.get rep2 name) ->
  BaseSerializer.from_representation self rep1 partial
  = BaseSerializer.from_representation self rep2 partial.
Proof. intros H. now apply from_representation_loop_ext. Qed.

Lemma from_representation_loop_Ok fields representation acc y :
  BaseSerializer.from_representation_loop fields representation false acc = Ok y ->
  exists val : string * BaseField.t -> Value,
    (forall nf, In nf fields ->
       exists external,
         PyDict.get representation (fst nf) = Some external
         /\ convert (snd nf) external = Ok (val nf))
    /\ y = PyDict.update acc (map (fun nf => (key nf, val nf)) fields).
Proof.
  intros H.
  exists (fun nf => match PyDict.get representation (fst nf) with
                    | Some external =>
                        match convert (snd nf) external with
                        | Ok v => v
                        | Raise _ => VNone
                        end
                    | None => VNone
                    end).
  revert acc H. induction fields as [|[n f] fields IH]; intros acc H.
  - injection H as <-. split; [intros nf []| reflexivity].
  - rewrite from_representation_loop_step in H.
    destruct (PyDict.get representation n) as [external|] eqn:Hget;
      [|discriminate].
    destruct (convert f external) as [value|e] eqn:Hc; simpl in H;
      [|discriminate].
    destruct (IH _ H) as (Hall & ->). split.
    + intros nf [<- | Hin]; [|now apply Hall].
      exists external. simpl. now rewrite Hget, Hc.
    + simpl. unfold key at 2. simpl. now rewrite Hget, Hc.
Qed.

(** X8.  When the fields have distinct source keys, a successful full
    deserialization returns a dictionary whose keys are the source keys in
    declaration order; under the source key of a field that is not [many]
    it holds what the field's [validate] returned for the field's
    [from_representation] of the entry under the field's name. *)
Theorem from_representation_stores_under_source
    (self : BaseSerializer.t) (representation y : PyDict.t Value) :
  NoDup (sources self) ->
  BaseSerializer.from_representation self representation false = Ok y ->
  PyDict.keys y = sources self
  /\ forall name field,
       In (name, field) self -> BaseField.many field = false ->
       exists external internal value,
         PyDict.get representation name = Some external
         /\ BaseField.from_representation field external = Ok internal
         /\ BaseField.validate field internal = Ok value
         /\ PyDict.get y (BaseSerializer.source_or_name field name) = Some value.
Proof.
  intros Hnd H. apply from_representation_loop_Ok in H.
  destruct H as (val & Hall & ->). unfold PyDict.items in *.
  assert (Hkeys : map fst (map (fun nf : string * BaseField.t => (key nf, val nf)) self)
                  = sources self)
    by (unfold sources; rewrite map_map; reflexivity).
  assert (Hnd' : NoDup (map fst (map (fun nf : string * BaseField.t =>
                                        (key nf, val nf)) self)))
    by (now rewrite Hkeys).
  pose proof (of_items_distinct _ Hnd') as Hsame.
  unfold PyDict.of_items in Hsame. rewrite Hsame.
  split; [exact Hkeys|].
  intros name field Hin _.
  destruct (Hall (name, field) Hin) as (external & Hget & Hc).
  simpl in Hget, Hc. unfold convert in Hc.
  destruct (BaseField.from_representation field external) as [internal|e]
    eqn:Hfrom; simpl in Hc; [|discriminate].
  exists external, internal, (val (name, field)). repeat split; trivial.
  apply In_get; [unfold PyDict.keys; now rewrite Hkeys|].
  apply (in_map (fun nf => (key nf, val nf)) self (name, field) Hin).
Qed.

End FromRepresentationMore.

(* ================================================================== *)
(** ** Accessors, description and inheritance *)

Section Accessors.



Variable Description : Type.
Variable describe_field : BaseField.t -> Description.

(** X10.  The description of a serializer has one entry per field, under
    the field's name and in declaration order, and the entry is the
    description of that field. *)
Theorem describe_entries (self : BaseSerializer.t) :
  NoDup (PyDict.keys self) ->
  PyDict.keys (SerializerAPI.describe describe_field self) = PyDict.keys self
  /\ forall name field, In (name, field) self ->
       PyDict.get (SerializerAPI.describe describe_field self) name
       = Some (describe_field field).
Proof.
  intros Hnd. unfold SerializerAPI.describe, PyDict.items.
  assert (Hkeys : map fst (map (fun nf : string * BaseField.t =>
                                  (fst nf, describe_field (snd nf))) self)
                  = PyDict.keys self)
    by (rewrite map_map; reflexivity).
  rewrite of_items_distinct by (now rewrite Hkeys).
  split; [exact Hkeys|].
  intros name field Hin. apply In_get.
  - unfold PyDict.keys. now rewrite Hkeys.
  - apply (in_map (fun nf => (fst nf, describe_field (snd nf))) self
             (name, field) Hin).
Qed.

(** X11.  A class that declares no field of its own and has one serializer
    class as base has the field storage of that base, unchanged and in the
    same order. *)
Theorem inherit_without_fields
    (bases : list Class) (base_namespace namespace : PyDict.t Attribute) :
  MetaSerializer.declared_fields namespace = [] ->
  BaseSerializer.fields
    (MetaSerializer.__new__
       [MetaSerializer.__new__ bases base_namespace] namespace)
  = BaseSerializer.fields (MetaSerializer.__new__ bases base_namespace).
Proof.
  intros Hnone.
  unfold MetaSerializer.__new__, MetaSerializer._get_fields,
    BaseSerializer.fields. simpl.
  unfold MetaSerializer.prepend_base at 1. simpl.
  rewrite Hnone, app_nil_r. unfold PyDict.items.
  apply of_items_distinct.
  change (NoDup (PyDict.keys
            (PyDict.of_items
               (fold_left MetaSerializer.prepend_base (rev bases)
                  (MetaSerializer.declared_fields base_namespace))))).
  rewrite keys_of_items. apply first_occurrences_NoDup.
Qed.

End Accessors.

(* ================================================================== *)
(** ** More about the JSON codec *)

Section JSONCodecFacts.

Variable loads : list byte -> Result Value.
Variable json_dumps : Value -> option Z -> string.
(** [str.encode('utf-8')] *)
Variable encode : string -> list byte.

Lemma length_skipn_le (A : Type) (n : nat) (l : list A) :
  n <= List.length l -> n + List.length (skipn n l) = List.length l.
Proof. intros H. rewrite length_skipn. lia. Qed.

(** X12.  [deserialize] never rewinds the stream and never changes its
    buffer; it stays within the buffer, and with a declared length that is
    not negative it moves the position by at most that length. *)
Theorem deserialize_consumes_at_most
    (stream : BytesIO.t) (content_type : string) (content_length : option Z) :
  let after := snd (JSONHandler.deserialize loads stream content_type
                      content_length) in
  BytesIO.buffer after = BytesIO.buffer stream
  /\ BytesIO.pos stream <= BytesIO.pos after
  /\ (BytesIO.pos stream <= List.length (BytesIO.buffer stream) ->
      BytesIO.pos after <= List.length (BytesIO.buffer stream))
  /\ (forall n, content_length = Some n -> (0 <= n)%Z ->
        BytesIO.pos after - BytesIO.pos stream <= Z.to_nat n).
Proof.
  unfold JSONHandler.deserialize, BytesIO.read. simpl.
  split; [reflexivity|]. split; [lia|]. split.
  - intros Hpos. pose proof (length_skipn_le _ Hpos) as Hlen.
    unfold BytesIO.remaining.
    destruct (JSONHandler.length_or_0 content_length <? 0)%Z; [lia|].
    rewrite length_firstn. lia.
  - intros n -> Hn. simpl. destruct (Z.ltb_spec n 0); [lia|].
    rewrite length_firstn. lia.
Qed.

(** X13.  What [serialize] has printed is read back whole when it is put in
    a fresh stream and its length in bytes is declared: if the parser
    inverts the printer on a value, [deserialize] returns that value and
    leaves the stream at its end. *)
Theorem serialize_deserialize
    (media : Value) (content_type : string) (indent : Z) :
  let data := encode (JSONCodec.serialize json_dumps media content_type indent) in
  loads data = Ok media ->
  JSONHandler.deserialize loads (BytesIO.Build data 0) content_type
    (Some (Z.of_nat (List.length data)))
  = (Ok media, BytesIO.Build data (List.length data)).
Proof.
  intros data Hloads.
  unfold JSONHandler.deserialize, BytesIO.read, BytesIO.remaining. simpl.
  destruct (Z.ltb_spec (Z.of_nat (List.length data)) 0); [lia|].
  rewrite Nat2Z.id, firstn_all.
  unfold JSONHandler.try_loads. now rewrite Hloads.
Qed.

(** X14.  A [ValueError] of the parser never leaves [deserialize]: it is
    reported as the bad request [Invalid JSON] whose description ends with
    the parser's message, and any other outcome of the parser is the
    outcome of [deserialize]. *)
Theorem deserialize_reports_bad_request
    (stream : BytesIO.t) (content_type : string) (content_length : option Z) :
  let data := fst (BytesIO.read stream (JSONHandler.length_or_0 content_length)) in
  let result := fst (JSONHandler.deserialize loads stream content_type
                       content_length) in
  (forall msg, result <> Raise (ValueError msg))
  /\ (forall err, loads data = Raise (ValueError err) ->
        result = Raise (HTTPBadRequest "Invalid JSON"
                          (String.append "Could not parse JSON body - " err)))
  /\ (forall media, loads data = Ok media <-> result = Ok media).
Proof.
  unfold JSONHandler.deserialize, BytesIO.read, JSONHandler.try_loads. simpl.
  destruct (loads _) as [media|[]]; repeat split; try congruence;
    intros; discriminate.
Qed.

End JSONCodecFacts.

(* ================================================================== *)
(** ** BaseMediaHandler: requests and responses *)

Section BaseHandling.

Variable allowed_media_types : list string.
Variable media_type : string.
Variable deserialize :
  BytesIO.t -> option string -> option Z -> Result Value * BytesIO.t.
Variable serialize : Value -> option string -> Result Serialized.

(** X15.  [handle_request] decides on the content type it is given or, if
    that is empty, on the request's own.  A type that is not among the
    allowed media types is rejected with [HTTPUnsupportedMediaType], whose
    description names every allowed type, and the request, its stream
    included, is left as it was.  An allowed type has the body deserialized
    with the declared length of the request, and only the stream of the
    request changes. *)
Theorem handle_request_checks_content_type
    (req : Request.t) (content_type : option string) :
  let effective := opt_or content_type (Request.content_type req) in
  (opt_mem effective allowed_media_types = false ->
   exists description,
     MediaHandling.handle_request allowed_media_types deserialize req
       content_type
     = (Raise (HTTPUnsupportedMediaType description), req)
     /\ forall allowed, In allowed allowed_media_types ->
          occurs_in (quoted allowed) description)
  /\ (opt_mem effective allowed_media_types = true ->
      MediaHandling.handle_request allowed_media_types deserialize req
        content_type
      = (fst (deserialize (Request.stream req) effective
                (Request.content_length req)),
         Request.Build
           (snd (deserialize (Request.stream req) effective
                   (Request.content_length req)))
           (Request.content_type req) (Request.content_length req)
           (Request.default_media_type req))).
Proof.
  intros effective. unfold MediaHandling.handle_request. fold effective.
  split; intros ->.
  - eexists. split; [reflexivity|].
    apply unsupported_description_names.
  - now destruct (deserialize _ _ _).
Qed.

(** X16.  [handle_response] sets the content type of the response to the
    handler's media type before it serializes, so also when [serialize]
    raises.  Bytes go to [data] and leave [body] alone, a string goes to
    [body] and leaves [data] alone, and the serialized value is
    returned. *)
Theorem handle_response_writes_one_slot (resp : Response.t) (media : Value) :
  let result := fst (MediaHandling.handle_response media_type serialize resp media) in
  let after := snd (MediaHandling.handle_response media_type serialize resp media) in
  result = serialize media (Some media_type)
  /\ Response.content_type after = Some media_type
  /\ (forall data, result = Ok (SBytes data) ->
        Response.data after = Some data
        /\ Response.body after = Response.body resp)
  /\ (forall text, result = Ok (SStr text) ->
        Response.body after = Some text
        /\ Response.data after = Response.data resp)
  /\ (forall e, result = Raise e ->
        Response.data after = Response.data resp
        /\ Response.body after = Response.body resp).
Proof.
  unfold MediaHandling.handle_response. simpl.
  destruct (serialize media (Some media_type)) as [[text|data]|e]; simpl;
    repeat split; intros; congruence.
Qed.

End BaseHandling.

(* ================================================================== *)
(** ** More about the construction of the registry *)

Section ConstructionMore.

Lemma In_of_items (V : Type) (pairs : list (string * V)) k (v : V) :
  In (k, v) (PyDict.of_items pairs) -> In (k, v) pairs.
Proof.
  intros H. apply In_get in H.
  - rewrite get_of_items in H. apply get_Some_In in H. now apply in_rev.
  - rewrite keys_of_items. apply first_occurrences_NoDup.
Qed.

Lemma extra_pairs_declared given registered k handler :
  In (k, handler) (MediaHandlers.extra_pairs given registered) ->
  In handler (PyDict.values given)
  /\ In k (BaseMediaHandler.allowed_media_types handler)
  /\ PyDict.get registered k = None.
Proof.
  unfold MediaHandlers.extra_pairs. intros H.
  apply in_flat_map in H. destruct H as (h & Hh & Hin).
  apply in_map_iff in Hin. destruct Hin as (m & Heq & Hm).
  injection Heq as -> ->. apply filter_In in Hm. destruct Hm as (Hm & Hc).
  repeat split; trivial.
  unfold PyDict.contains in Hc. now destruct (PyDict.get registered k).
Qed.

(** X17.  The constructor overwrites nothing: a media type that was given
    (or is built in) keeps its codec.  Any other key of the constructed
    registry is an allowed media type of one of the given codecs, and it
    is bound to a codec that declares it. *)
Theorem init_keeps_and_adds
    (default_media_type : string)
    (handlers : option (PyDict.t BaseMediaHandler.t)) (self : MediaHandlers.t) :
  MediaHandlers.__init__ default_media_type handlers = Ok self ->
  (forall k handler,
     PyDict.get (MediaHandlers.handlers_or_builtin handlers) k = Some handler ->
     PyDict.get (MediaHandlers.handlers self) k = Some handler)
  /\ (forall k handler,
        PyDict.get (MediaHandlers.handlers self) k = Some handler ->
        PyDict.get (MediaHandlers.handlers_or_builtin handlers) k = None ->
        exists given,
          handlers = Some given
          /\ In handler (PyDict.values given)
          /\ In k (BaseMediaHandler.allowed_media_types handler)).
Proof.
  unfold MediaHandlers.__init__.
  destruct (negb _); [discriminate|]. intros [= <-].
  cbn [MediaHandlers.handlers]. split.
  - intros k handler. apply resolved_handlers_kept.
  - intros k handler Hget Hnone. unfold MediaHandlers.resolved_handlers in Hget.
    destruct handlers as [given|]; [|congruence].
    exists given. split; [reflexivity|].
    rewrite get_update, Hnone in Hget.
    destruct (PyDict.get (rev _) k) as [h|] eqn:Hrev; [|discriminate].
    injection Hget as ->. apply get_Some_In, in_rev in Hrev.
    unfold PyDict.items in Hrev. apply In_of_items in Hrev.
    apply extra_pairs_declared in Hrev. tauto.
Qed.

(** X18.  The allowed media types of a constructed registry are its keys,
    each listed once. *)
Theorem init_allowed_are_keys
    (default_media_type : string)
    (handlers : option (PyDict.t BaseMediaHandler.t)) (self : MediaHandlers.t) :
  MediaHandlers.__init__ default_media_type handlers = Ok self ->
  NoDup (MediaHandlers.allowed_media_types self)
  /\ In (MediaHandlers.media_type self) (MediaHandlers.allowed_media_types self)
  /\ forall k, In k (MediaHandlers.allowed_media_types self) <->
               In k (PyDict.keys (MediaHandlers.handlers self)).
Proof.
  intros Hinit. pose proof Hinit as Hcopy. unfold MediaHandlers.__init__ in Hcopy.
  destruct (negb _) eqn:Hdefault; [discriminate|]. injection Hcopy as <-.
  apply negb_false_iff, contains_In in Hdefault.
  cbn [MediaHandlers.allowed_media_types MediaHandlers.handlers
       MediaHandlers.media_type MediaHandlers.default_media_type].
  unfold BaseMediaHandler.init_allowed, py_set. split; [|split].
  - apply first_occurrences_NoDup.
  - apply first_occurrences_In. simpl. auto.
  - intros k. rewrite first_occurrences_In. simpl. split.
    + intros [<- | H]; assumption.
    + auto.
Qed.

End ConstructionMore.

(* ================================================================== *)
(** ** More about lookup_handler *)

Section LookupHandlerMore.

Variable best_match : list string -> string -> option string.

Implicit Types (self : MediaHandlers.t).

(** The two ways a call can end: nothing is written, or the codec that is
    returned is written under the type that was looked up and that had no
    entry. *)
Lemma lookup_handler_outcome self requested default_media_type result self' :
  MediaHandlers.lookup_handler best_match self requested default_media_type
  = (result, self') ->
  self' = self
  \/ exists handler,
       result = Ok handler
       /\ PyDict.get (MediaHandlers.handlers self)
            (MediaHandlers.effective_media_type self requested
               default_media_type) = None
       /\ self' = MediaHandlers.Build (MediaHandlers.default_media_type self)
                    (PyDict.set (MediaHandlers.handlers self)
                       (MediaHandlers.effective_media_type self requested
                          default_media_type) handler)
                    (MediaHandlers.allowed_media_types self).
Proof.
  unfold MediaHandlers.lookup_handler.
  destruct (PyDict.get _ _) as [h|] eqn:Hget.
  - intros [= <- <-]. now left.
  - destruct (MediaHandlers.resolve _ _ _) as [h|e].
    + intros [= <- <-]. right. exists h. auto.
    + destruct (MediaHandlers.caught e); intros [= <- <-]; now left.
Qed.

(** X19.  A lookup that has returned a codec returns the same codec when it
    is repeated on the registry it left, and leaves that registry as it
    is. *)
Theorem lookup_handler_repeat
    self (requested default_media_type : option string)
    (handler : BaseMediaHandler.t) self' :
  MediaHandlers.lookup_handler best_match self requested default_media_type
  = (Ok handler, self') ->
  MediaHandlers.lookup_handler best_match self' requested default_media_type
  = (Ok handler, self').
Proof.
  intros H. destruct (lookup_handler_outcome _ _ _ H)
    as [-> | (h & [= <-] & Hnone & ->)]; [exact H|].
  apply lookup_handler_exact.
  change (MediaHandlers.effective_media_type
            (MediaHandlers.Build _ _ _) requested default_media_type)
    with (MediaHandlers.effective_media_type self requested default_media_type).
  cbn [MediaHandlers.handlers]. apply get_set_same.
Qed.

Lemma lookup_handler_keeps_settings self requested default_media_type result self' :
  MediaHandlers.lookup_handler best_match self requested default_media_type
  = (result, self') ->
  MediaHandlers.default_media_type self' = MediaHandlers.default_media_type self
  /\ MediaHandlers.allowed_media_types self'
     = MediaHandlers.allowed_media_types self.
Proof.
  intros H. destruct (lookup_handler_outcome _ _ _ H)
    as [-> | (h & _ & _ & ->)]; split; reflexivity.
Qed.

(** X20.  Whatever a lookup returns, the registry keeps its default media
    type and its allowed media types, every media type that had a codec
    keeps that codec, and the only key that can be new is the type that
    was looked up. *)
Theorem lookup_handler_only_adds
    self (requested default_media_type : option string)
    (result : Result BaseMediaHandler.t) self' :
  MediaHandlers.lookup_handler best_match self requested default_media_type
  = (result, self') ->
  MediaHandlers.default_media_type self' = MediaHandlers.default_media_type self
  /\ MediaHandlers.allowed_media_types self'
     = MediaHandlers.allowed_media_types self
  /\ (forall k handler,
        PyDict.get (MediaHandlers.handlers self) k = Some handler ->
        PyDict.get (MediaHandlers.handlers self') k = Some handler)
  /\ (forall k,
        In k (PyDict.keys (MediaHandlers.handlers self')) ->
        In k (PyDict.keys (MediaHandlers.handlers self))
        \/ k = MediaHandlers.effective_media_type self requested
                 default_media_type).
Proof.
  intros H. destruct (lookup_handler_outcome _ _ _ H)
    as [-> | (h & _ & Hnone & ->)]; [auto|].
  cbn [MediaHandlers.default_media_type MediaHandlers.allowed_media_types
       MediaHandlers.handlers].
  repeat split.
  - intros k handler Hget. rewrite get_set_other; [exact Hget|]. congruence.
  - intros k. rewrite keys_set.
    destruct (PyDict.contains _ _); [auto|]. rewrite in_app_iff. simpl.
    intuition.
Qed.

(** X21.  A media type that is given, and is neither empty nor the
    wildcard, is looked up as it is: the [default_media_type] argument has
    no influence on the call. *)
Theorem lookup_handler_ignores_default
    self (media_type : string) (default1 default2 : option string) :
  media_type <> EmptyString -> media_type <> "*/*" ->
  MediaHandlers.lookup_handler best_match self (Some media_type) default1
  = MediaHandlers.lookup_handler best_match self (Some media_type) default2.
Proof.
  intros Hne Hw. unfold MediaHandlers.lookup_handler.
  now rewrite !(effective_media_type_given self _ Hne Hw).
Qed.

End LookupHandlerMore.

(* ================================================================== *)
(** ** The registry as a handler of requests and responses *)

Section RegistryHandling.

Variable best_match : list string -> string -> option string.
Variable codec_deserialize :
  BaseMediaHandler.t -> BytesIO.t -> option string -> option Z ->
  Result Value * BytesIO.t.
Variable codec_serialize :
  BaseMediaHandler.t -> Value -> option string -> Result Serialized.

Implicit Types (self : MediaHandlers.t).

Lemma opt_or_again (a b : option string) : opt_or (opt_or a b) b = opt_or a b.
Proof.
  destruct a as [[|c s]|]; simpl; try reflexivity;
    destruct b as [[|c s]|]; reflexivity.
Qed.

(** X22.  The registry deserializes no request whose content type is not,
    as it is written, one of its allowed media types: [handle_request]
    raises and the request, its stream included, is left as it was.  This
    holds for the wildcard and for the empty type too, although
    [lookup_handler] finds the default codec for them. *)
Theorem registry_handle_request_requires_allowed
    self (req : Request.t) (content_type : option string) :
  opt_mem (opt_or content_type (Request.content_type req))
    (MediaHandlers.allowed_media_types self) = false ->
  exists e self',
    Registry.handle_request best_match codec_deserialize self req content_type
    = (Raise e, req, self').
Proof.
  intros Hnot. unfold Registry.handle_request.
  destruct (MediaHandlers.lookup_handler _ _ _ _) as [[handler|e] self'] eqn:Hl.
  - destruct (lookup_handler_keeps_settings _ _ _ _ Hl) as (_ & Hallowed).
    unfold MediaHandling.handle_request. rewrite opt_or_again, Hallowed, Hnot.
    eexists. eexists. reflexivity.
  - eexists. eexists. reflexivity.
Qed.

(** X23.  A request whose content type is a key of the registry and one of
    its allowed media types is deserialized by the codec registered under
    that key, from the stream of the request and with its declared length;
    the registry is unchanged, and an exception of the codec is the
    exception of [handle_request]. *)
Theorem registry_handle_request_delegates
    self (req : Request.t) (media_type : string)
    (handler : BaseMediaHandler.t) :
  media_type <> EmptyString -> media_type <> "*/*" ->
  PyDict.get (MediaHandlers.handlers self) media_type = Some handler ->
  In media_type (MediaHandlers.allowed_media_types self) ->
  let run := codec_deserialize handler (Request.stream req) (Some media_type)
               (Request.content_length req) in
  Registry.handle_request best_match codec_deserialize self req
    (Some media_type)
  = (match fst run with Ok _ => Ok tt | Raise e => Raise e end,
     Request.Build (snd run) (Request.content_type req)
       (Request.content_length req) (Request.default_media_type req),
     self).
Proof.
  intros Hne Hw Hget Hin run. unfold Registry.handle_request.
  assert (Heff : opt_or (Some media_type) (Request.content_type req)
                 = Some media_type)
    by (simpl; now rewrite (is_empty_false Hne)).
  rewrite Heff.
  rewrite (@lookup_handler_exact best_match self (Some media_type)
             (Some (Request.default_media_type req)) handler)
    by (now rewrite (effective_media_type_given self _ Hne Hw)).
  unfold MediaHandling.handle_request. rewrite Heff. simpl.
  apply mem_In in Hin. rewrite Hin. fold run.
  destruct run as [[media|e] stream]; reflexivity.
Qed.

(** X24.  When the lookup for a response finds a codec and the codec
    prints a string, the string becomes the body of the response, [data] is
    left alone, and the content type of the response is the codec's own
    media type; the codec is called with the registry's default media type
    as content type. *)
Theorem registry_handle_response_sets_codec_type
    self (resp : Response.t) (media : Value)
    (handler : BaseMediaHandler.t) self' (text : string) :
  MediaHandlers.lookup_handler best_match self
    (opt_or (Response.content_type resp) (Some (MediaHandlers.media_type self)))
    (Some (Response.default_media_type resp)) = (Ok handler, self') ->
  codec_serialize handler media (Some (MediaHandlers.media_type self))
  = Ok (SStr text) ->
  Registry.handle_response best_match codec_serialize self resp media
  = (Ok tt,
     Response.Build (Some (BaseMediaHandler.media_type handler))
       (Response.data resp) (Some text) (Response.default_media_type resp),
     self').
Proof.
  intros Hl Hs. unfold Registry.handle_response. rewrite Hl.
  destruct (lookup_handler_keeps_settings _ _ _ _ Hl) as (Hdefault & _).
  unfold MediaHandling.handle_response, Registry.serialize,
    Registry.handler_or_lookup, MediaHandlers.media_type in *.
  simpl. rewrite Hdefault, Hs. reflexivity.
Qed.

End RegistryHandling.

(* ================================================================== *)
(** ** The further properties on the serializers of the tests *)

Section SerializerExamples.

Lemma to_representation_field_names_witness :
  NoDup (PyDict.keys SourcesSerializer)
  /\ BaseSerializer.to_representation SourcesSerializer (VDict sources_object)
     = Ok [("name", VStr "John"); ("address", VStr "US")]
  /\ PyDict.keys [("name", VStr "John"); ("address", VStr "US")]
     = PyDict.keys SourcesSerializer.
Proof.
  assert (Hnd : NoDup (PyDict.keys SourcesSerializer)) by distinct_names.
  assert (Hrun : BaseSerializer.to_representation SourcesSerializer
                   (VDict sources_object)
                 = Ok [("name", VStr "John"); ("address", VStr "US")])
    by reflexivity.
  split; [exact Hnd|]. split; [exact Hrun|].
  exact (@to_representation_field_names SourcesSerializer (VDict sources_object)
           _ Hnd Hrun).
Defined.

(** An object without [_address]: the entry of [address] is [None]. *)
Lemma to_representation_missing_attribute_witness :
  BaseSerializer.to_representation SourcesSerializer
    (VDict [("_name", VStr "John")])
  = Ok [("name", VStr "John"); ("address", VNone)]
  /\ PyDict.get [("name", VStr "John"); ("address", VNone)] "address"
     = Some VNone.
Proof.
  assert (Hnd : NoDup (PyDict.keys SourcesSerializer)) by distinct_names.
  assert (Hrun : BaseSerializer.to_representation SourcesSerializer
                   (VDict [("_name", VStr "John")])
                 = Ok [("name", VStr "John"); ("address", VNone)])
    by reflexivity.
  split; [exact Hrun|].
  apply (@to_representation_missing_attribute SourcesSerializer
           (VDict [("_name", VStr "John")]) _ "address"
           (ExampleField (Some "_address") false false false "address")
           Hnd Hrun).
  - simpl. auto.
  - reflexivity.
Defined.

Lemma to_representation_many_elementwise_witness :
  exists externals,
    PyDict.get [("tags", VList [VStr "aa"; VStr "bb"])] "tags"
    = Some (VList externals)
    /\ Forall2 (fun item external => Ok item = Ok external)
         [VStr "aa"; VStr "bb"] externals.
Proof.
  assert (Hnd : NoDup (PyDict.keys TagsSerializer)) by distinct_names.
  assert (Hrun : BaseSerializer.to_representation TagsSerializer tags_object
                 = Ok [("tags", VList [VStr "aa"; VStr "bb"])])
    by reflexivity.
  apply (@to_representation_many_elementwise TagsSerializer tags_object _
           "tags" (ExampleField None true false false "tags")
           [VStr "aa"; VStr "bb"] Hnd Hrun).
  - simpl. auto.
  - reflexivity.
  - reflexivity.
Defined.

(** [test_serializer_source_field_with_wildcard] *)
Lemma to_representation_wildcard_source_witness :
  exists external,
    Ok (VDict star_object) = Ok external
    /\ PyDict.get [("starfield", VDict star_object)] "starfield" = Some external.
Proof.
  assert (Hnd : NoDup (PyDict.keys StarSerializer)) by distinct_names.
  assert (Hrun : BaseSerializer.to_representation StarSerializer
                   (VDict star_object)
                 = Ok [("starfield", VDict star_object)])
    by reflexivity.
  apply (@to_representation_wildcard_source StarSerializer (VDict star_object) _
           "starfield" (ExampleField (Some "*") false false false "whole object")
           Hnd Hrun).
  - simpl. auto.
  - reflexivity.
  - reflexivity.
  - discriminate.
Defined.

(** The representation of [test_serialiser_simple_representation] with the
    key [gender] left in: it is ignored. *)
Lemma from_representation_ignores_unknown_keys_witness :
  BaseSerializer.from_representation SourcesSerializer
    [("name", VStr "John"); ("address", VStr "US"); ("gender", VStr "male")]
    false
  = BaseSerializer.from_representation SourcesSerializer
      [("name", VStr "John"); ("address", VStr "US")] false.
Proof.
  apply from_representation_ignores_unknown_keys.
  intros name [<- | [<- | []]]; reflexivity.
Defined.

Lemma from_representation_stores_under_source_witness :
  NoDup (sources SourcesSerializer)
  /\ PyDict.keys [("_name", VStr "John"); ("_address", VStr "US")]
     = sources SourcesSerializer.
Proof.
  assert (Hnd : NoDup (sources SourcesSerializer)) by distinct_names.
  split; [exact Hnd|].
  apply (@from_representation_stores_under_source SourcesSerializer
           [("name", VStr "John"); ("address", VStr "US")]
           [("_name", VStr "John"); ("_address", VStr "US")] Hnd).
  reflexivity.
Defined.


(** [test_serializer_describe], with the label as description. *)
Lemma describe_entries_witness :
  PyDict.keys (SerializerAPI.describe BaseField.label SourcesSerializer)
  = ["name"; "address"]
  /\ PyDict.get (SerializerAPI.describe BaseField.label SourcesSerializer)
       "address" = Some "address".
Proof.
  assert (Hnd : NoDup (PyDict.keys SourcesSerializer)) by distinct_names.
  destruct (@describe_entries string BaseField.label SourcesSerializer Hnd)
    as (Hkeys & Hget).
  split; [exact Hkeys|].
  apply (Hget "address"
           (ExampleField (Some "_address") false false false "address")).
  simpl. auto.
Defined.

(** A class derived from the parent of the tests that only adds an
    attribute which is not a field. *)
Lemma inherit_without_fields_witness :
  BaseSerializer.fields
    (MetaSerializer.__new__
       [MetaSerializer.__new__ [BaseSerializer_class] parent_namespace]
       [("version", AOther (VInt 1))])
  = BaseSerializer.fields TestParentSerializer.
Proof.
  apply (@inherit_without_fields [BaseSerializer_class] parent_namespace
           [("version", AOther (VInt 1))]).
  reflexivity.
Defined.

End SerializerExamples.

(* ================================================================== *)
(** ** The further properties on the codecs and registries of the tests *)

Section MediaExamples.

(** [test_serialization_process] on the empty object. *)
Lemma serialize_deserialize_witness :
  JSONHandler.deserialize sample_loads (BytesIO.Build [x7b; x7d] 0)
    "application/json" (Some 2%Z)
  = (Ok (VDict []), BytesIO.Build [x7b; x7d] 2).
Proof.
  apply (@serialize_deserialize sample_loads sample_dumps list_byte_of_string
           (VDict []) "application/json" 0%Z).
  reflexivity.
Defined.

(** The first registry of [test_custom_extra_media_handlers]: the alias is
    bound to the one codec that was given. *)
Lemma init_keeps_and_adds_witness :
  exists self,
    MediaHandlers.__init__ "application/json" (Some json_with_alias) = Ok self
    /\ PyDict.get (MediaHandlers.handlers self) "application/json"
       = Some (JSONHandler.__init__ 3 ["application/json; charset=UTF-8"])
    /\ PyDict.get (MediaHandlers.handlers self)
         "application/json; charset=UTF-8"
       = Some (JSONHandler.__init__ 3 ["application/json; charset=UTF-8"]).
Proof.
  eexists. split; [reflexivity|]. split; [|reflexivity].
  eapply (proj1 (@init_keeps_and_adds "application/json" (Some json_with_alias)
                   _ eq_refl)).
  reflexivity.
Defined.

Lemma init_allowed_are_keys_witness :
  NoDup (MediaHandlers.allowed_media_types default_registry)
  /\ forall k, In k (MediaHandlers.allowed_media_types default_registry) <->
               In k (PyDict.keys (MediaHandlers.handlers default_registry)).
Proof.
  destruct (@init_allowed_are_keys "application/json" None default_registry
              eq_refl) as (Hnd & _ & Hkeys).
  split; assumption.
Defined.

(** With the empty string as a key the matcher's "no match" finds a codec:
    it is cached under the requested type and found there again. *)
Lemma lookup_handler_repeat_witness :
  PyDict.get (MediaHandlers.handlers registry_with_blank_key) "nope/json" = None
  /\ exists self',
       MediaHandlers.lookup_handler sample_best_match registry_with_blank_key
         (Some "nope/json") None = (Ok (JSONHandler.__init__ 5 []), self')
       /\ PyDict.get (MediaHandlers.handlers self') "nope/json"
          = Some (JSONHandler.__init__ 5 [])
       /\ MediaHandlers.lookup_handler sample_best_match self'
            (Some "nope/json") None = (Ok (JSONHandler.__init__ 5 []), self').
Proof.
  split; [reflexivity|]. eexists. split; [reflexivity|]. split; [reflexivity|].
  apply (@lookup_handler_repeat sample_best_match registry_with_blank_key
           (Some "nope/json") None).
  reflexivity.
Defined.

Lemma lookup_handler_only_adds_witness :
  exists result self',
    MediaHandlers.lookup_handler sample_best_match registry_with_blank_key
      (Some "nope/json") None = (result, self')
    /\ PyDict.keys (MediaHandlers.handlers self')
       = ["application/json"; EmptyString; "nope/json"]
    /\ MediaHandlers.allowed_media_types self'
       = MediaHandlers.allowed_media_types registry_with_blank_key.
Proof.
  eexists. eexists. split; [reflexivity|]. split; [reflexivity|].
  eapply (proj1 (proj2 (@lookup_handler_only_adds sample_best_match
                          registry_with_blank_key (Some "nope/json") None
                          _ _ eq_refl))).
Defined.

Lemma lookup_handler_ignores_default_witness :
  MediaHandlers.lookup_handler sample_best_match default_registry
    (Some "application/json") (Some "nope/json")
  = MediaHandlers.lookup_handler sample_best_match default_registry
      (Some "application/json") None.
Proof.
  apply lookup_handler_ignores_default; discriminate.
Defined.

(** A request declared as [*/*]: the lookup finds the default codec, but
    the wildcard is not an allowed media type and the request is
    refused. *)
Lemma registry_handle_request_requires_allowed_witness :
  fst (MediaHandlers.lookup_handler sample_best_match default_registry
         (Some "*/*") (Some "application/json"))
  = Ok (JSONHandler.__init__ 0 [])
  /\ exists e self',
       Registry.handle_request sample_best_match sample_codec_deserialize
         default_registry json_request (Some "*/*")
       = (Raise e, json_request, self').
Proof.
  split; [reflexivity|].
  apply registry_handle_request_requires_allowed. reflexivity.
Defined.

(** [test_handle_request] for the registry: the body is read to its end. *)
Lemma registry_handle_request_delegates_witness :
  Registry.handle_request sample_best_match sample_codec_deserialize
    default_registry json_request (Some "application/json")
  = (Ok tt,
     Request.Build (BytesIO.Build [x7b; x7d] 2) (Some "application/json")
       (Some 2%Z) "application/json",
     default_registry).
Proof.
  apply (@registry_handle_request_delegates sample_best_match
           sample_codec_deserialize default_registry json_request
           "application/json" (JSONHandler.__init__ 0 []));
    try discriminate; try reflexivity.
  simpl. auto.
Defined.

(** [test_handle_response_content_type] for the registry. *)
Lemma registry_handle_response_sets_codec_type_witness :
  Registry.handle_response sample_best_match sample_codec_serialize
    default_registry fresh_response (VDict [])
  = (Ok tt,
     Response.Build (Some "application/json") None (Some "{}")
       "application/json",
     default_registry).
Proof.
  apply (@registry_handle_response_sets_codec_type sample_best_match
           sample_codec_serialize default_registry fresh_response (VDict [])
           (JSONHandler.__init__ 0 []) default_registry "{}");
    reflexivity.
Defined.

End MediaExamples.

(* ================================================================== *)
(** ** What to_representation reads, and what a codec allows *)

Section ReadsAndAllows.

Lemma to_representation_loop_reads fields obj1 obj2 acc :
  (forall nf, In nf fields ->
     BaseSerializer.get_attribute obj1 (key nf)
     = BaseSerializer.get_attribute obj2 (key nf)) ->
  BaseSerializer.to_representation_loop fields obj1 acc
  = BaseSerializer.to_representation_loop fields obj2 acc.
Proof.
  revert acc. induction fields as [|[n f] fields IH]; intros acc H; simpl.
  - reflexivity.
  - pose proof (H (n, f) (or_introl eq_refl)) as Hnf. unfold key in Hnf.
    simpl in Hnf. rewrite Hnf.
    destruct (BaseSerializer.represent f _) as [v|e]; simpl; [|reflexivity].
    apply IH. intros nf Hin. apply H. now right.
Qed.

(** X25.  [to_representation] reads the object only through the source
    attributes of the fields: two objects that agree on them have the same
    representation, or raise the same exception. *)
Theorem to_representation_reads_sources_only
    (self : BaseSerializer.t) (obj1 obj2 : Value) :
  (forall name field, In (name, field) self ->
     BaseSerializer.get_attribute obj1 (BaseSerializer.source_or_name field name)
     = BaseSerializer.get_attribute obj2 (BaseSerializer.source_or_name field name)) ->
  BaseSerializer.to_representation self obj1
  = BaseSerializer.to_representation self obj2.
Proof.
  intros H. apply to_representation_loop_reads.
  intros [name field] Hin. exact (H name field Hin).
Qed.

(** [test_serialiser_sources_representation]: the object with and without
    [gender]. *)
Lemma to_representation_reads_sources_only_witness :
  BaseSerializer.to_representation SourcesSerializer (VDict sources_object)
  = BaseSerializer.to_representation SourcesSerializer
      (VDict [("_address", VStr "US"); ("_name", VStr "John")]).
Proof.
  apply to_representation_reads_sources_only.
  intros name field [Heq | [Heq | []]]; injection Heq as <- <-; reflexivity.
Defined.

(** X26.  A codec allows its own media type and the extra media types it
    was constructed with, and nothing else; no type is listed twice. *)
Theorem handler_init_allowed
    (ident : nat) (media_type : string) (extra_media_types : list string) :
  let handler := BaseMediaHandler.__init__ ident media_type extra_media_types in
  BaseMediaHandler.media_type handler = media_type
  /\ NoDup (BaseMediaHandler.allowed_media_types handler)
  /\ forall k, In k (BaseMediaHandler.allowed_media_types handler) <->
               k = media_type \/ In k extra_media_types.
Proof.
  cbv zeta. unfold BaseMediaHandler.__init__.
  cbn [BaseMediaHandler.media_type BaseMediaHandler.allowed_media_types].
  unfold BaseMediaHandler.init_allowed, py_set.
  split; [reflexivity|]. split; [apply first_occurrences_NoDup|].
  intros k. rewrite first_occurrences_In. simpl. intuition.
Qed.

End ReadsAndAllows.
